(** * OpenLoop research agent: a shallow embedding of [backend/src/agent]

    The development follows the three Python modules of the agent:
    - [utils.py]: topic extraction, url shortening, citation markers;
    - [app.py]:   the confidence scorer and the two HTTP entry points;
    - [graph.py]: the graph nodes, the routing functions and the wiring
      of the research loop.

    Python [int] is [Z], Python [float] is the primitive binary64 [float],
    Python [str] is [string], a [dict] used as a map is a [gmap], and the
    typed dictionaries of the graph state are records. *)

From Stdlib Require Import ZArith List Floats Lia Strings.Ascii.
From Stdlib Require Import Sorting.Permutation Sorting.Sorted.
From stdpp Require Import gmap strings pretty list sorting.

Set Warnings "-inexact-float".
Open Scope Z_scope.
#[local] Arguments String.append !_ _ / : simpl nomatch.

(** ** Python primitives used by the agent *)

Module Py.

(** The character [chr(10)], written backslash-n in the source. *)
Definition newline : string := String (Ascii.ascii_of_nat 10) EmptyString.

(** The double quote character. *)
Definition dquote : string := String (Ascii.ascii_of_nat 34) EmptyString.

(** [len(s)] of a string and of a list, as Python integers. *)
Definition len_str (s : string) : Z := Z.of_nat (String.length s).
Definition len {A} (l : list A) : Z := Z.of_nat (length l).

(** The first [n] characters of a string, and the string without them. *)
Fixpoint str_take (n : nat) (s : string) : string :=
  match n, s with
  | S n', String c s' => String c (str_take n' s')
  | _, _ => EmptyString
  end.

Fixpoint str_drop (n : nat) (s : string) : string :=
  match n, s with
  | S n', String _ s' => str_drop n' s'
  | _, _ => s
  end.

(** The bound of a slice [s[:e]] or [s[e:]] on a sequence of length
    [n]: a negative bound counts from the end, and the result is
    clipped to [0..n]. *)
Definition slice_bound (n e : Z) : Z :=
  if e <? 0 then Z.max 0 (n + e) else Z.min e n.

(** [s[:e]] and [s[e:]]. *)
Definition slice_to (s : string) (e : Z) : string :=
  str_take (Z.to_nat (slice_bound (len_str s) e)) s.
Definition slice_from (s : string) (e : Z) : string :=
  str_drop (Z.to_nat (slice_bound (len_str s) e)) s.

(** [l[:n]] on a list, for a non-negative literal [n]. *)
Definition list_slice_to {A} (l : list A) (n : nat) : list A := take n l.

(** [sep.join(l)]. *)
Fixpoint join (sep : string) (l : list string) : string :=
  match l with
  | [] => ""
  | [x] => x
  | x :: l' => x +:+ sep +:+ join sep l'
  end.

(** [str(n)] of an integer: decimal digits, with a leading minus sign
    for a negative number. *)
Definition str_int (n : Z) : string := pretty n.

(** [enumerate(l, start)]. *)
Fixpoint enumerate_from {A} (start : Z) (l : list A) : list (Z * A) :=
  match l with
  | [] => []
  | x :: l' => (start, x) :: enumerate_from (start + 1) l'
  end.
Definition enumerate {A} (l : list A) : list (Z * A) := enumerate_from 0 l.

(** [min(a, b)] and [max(a, b)] on floats: the first argument is kept
    unless the second is strictly smaller (resp. larger). *)
Definition min (a b : float) : float := if PrimFloat.ltb b a then b else a.
Definition max (a b : float) : float := if PrimFloat.ltb a b then b else a.

(** Truth value of a string and of an optional integer. *)
Definition truthy_str (s : string) : bool :=
  match s with EmptyString => false | _ => true end.
Definition truthy_opt_int (o : option Z) : bool :=
  match o with Some n => negb (n =? 0) | None => false end.
Definition truthy_opt_str (o : option string) : bool :=
  match o with Some s => truthy_str s | None => false end.

(** An exception that derives from [Exception]: its class name and the
    text [str(e)]. *)
Record Exception := raise_ { exc_class : string; exc_str : string }.

(** A computation that returns a value or raises. *)
Definition result (A : Type) : Type := Exception + A.
Definition ret {A} (a : A) : result A := inr a.
Definition raise {A} (cls msg : string) : result A := inl (raise_ cls msg).
Definition bind {A B} (m : result A) (k : A -> result B) : result B :=
  match m with inl e => inl e | inr a => k a end.

End Py.

Notation "'try!' x := m 'in' k" := (Py.bind m (fun x => k))
  (at level 10, x pattern, m at level 100, k at level 200).

(** ** Messages and sources *)

(** The message classes of a conversation; [get_research_topic] tells
    [HumanMessage] and [AIMessage] from every other class. *)
Inductive AnyMessage :=
| HumanMessage (content : string)
| AIMessage (content : string)
| OtherMessage (content : string).

Definition content (m : AnyMessage) : string :=
  match m with HumanMessage c | AIMessage c | OtherMessage c => c end.

(** An element of [sources_gathered]: the dictionary
    [{"url": ..., "title": ...}] that [web_research] records (every read
    of a key goes through [.get(key, "")], so an absent key is the empty
    string), or a plain string, which [app.py] accepts as well. *)
Inductive Source :=
| SourceDict (url title : string)
| SourceStr (s : string).

(** ** utils.py *)

Module Utils.

(** [get_research_topic(messages)]. *)
Definition get_research_topic (messages : list AnyMessage) : string :=
  match messages with
  | [m] => content m
  | _ =>
    fold_left
      (fun research_topic message =>
         match message with
         | HumanMessage c => research_topic +:+ "User: " +:+ c +:+ Py.newline
         | AIMessage c => research_topic +:+ "Assistant: " +:+ c +:+ Py.newline
         | OtherMessage _ => research_topic
         end)
      messages ""
  end.

(** An element of [urls_to_resolve]: an object with a [web.uri]
    attribute, or anything else, taken through [str]. *)
Inductive Site :=
| Grounded (web_uri : string)
| Plain (str_site : string).

Definition site_url (site : Site) : string :=
  match site with Grounded u => u | Plain s => s end.

Definition prefix : string := "https://openai-search.cloud.com/id/".

(** The value stored for the url met at position [idx]. *)
Definition short_url_of (id idx : Z) : string :=
  prefix +:+ Py.str_int id +:+ "-" +:+ Py.str_int idx.

(** [resolve_urls(urls_to_resolve, id)]. *)
Definition resolve_urls (urls_to_resolve : list Site) (id : Z)
  : gmap string string :=
  let urls := map site_url urls_to_resolve in
  fold_left
    (fun (resolved_map : gmap string string) '(idx, url) =>
       match resolved_map !! url with
       | None => <[url := short_url_of id idx]> resolved_map
       | Some _ => resolved_map
       end)
    (Py.enumerate urls) ∅.

(** A citation: [{"start_index", "end_index", "segments"}], each
    segment being [{"label", "short_url"}]. *)
Record Segment := { label : string; short_url : string }.
Record Citation :=
  { start_index : Z; end_index : Z; segments : list Segment }.

(** The sort key [(c["end_index"], c["start_index"])] and the strict
    order of Python tuples on it. *)
Definition sort_key (c : Citation) : Z * Z := (end_index c, start_index c).
Definition key_ltb (a b : Z * Z) : bool :=
  (fst a <? fst b) || ((fst a =? fst b) && (snd a <? snd b)).

(** [sorted(l, key=sort_key, reverse=True)]: a stable sort into
    descending key order (elements with equal keys keep their order). *)
Fixpoint insert_desc (x : Citation) (l : list Citation) : list Citation :=
  match l with
  | [] => [x]
  | y :: l' =>
    if key_ltb (sort_key x) (sort_key y) then y :: insert_desc x l'
    else x :: l
  end.
Definition sorted_reverse (l : list Citation) : list Citation :=
  fold_right insert_desc [] l.

(** The inner loop: [marker_to_insert += f" [{label}]({short_url})"]. *)
Definition marker_to_insert (citation_info : Citation) : string :=
  fold_left
    (fun marker segment =>
       marker +:+ " [" +:+ label segment +:+ "](" +:+ short_url segment +:+ ")")
    (segments citation_info) "".

(** One iteration of the outer loop. *)
Definition splice (modified_text : string) (citation_info : Citation) : string :=
  let end_idx := end_index citation_info in
  Py.slice_to modified_text end_idx
    +:+ marker_to_insert citation_info
    +:+ Py.slice_from modified_text end_idx.

(** [insert_citation_markers(text, citations_list)]. *)
Definition insert_citation_markers
    (text : string) (citations_list : list Citation) : string :=
  let sorted_citations := sorted_reverse citations_list in
  fold_left splice sorted_citations text.

End Utils.

(** ** graph.py *)

Module Graph.

(** *** Configuration, environment and collaborators *)

(** The configuration read by every node. *)
Record Configuration := {
  query_generator_model : string;
  reflection_model : string;
  answer_model : string;
  number_of_initial_queries : Z;
  max_research_loops : Z }.

(** [config["configurable"]], as [research_endpoint] fills it. *)
Record RunnableConfig := {
  cfg_max_research_loops : option Z;
  cfg_reasoning_model : option string;
  cfg_number_of_initial_queries : option Z }.

(** Modelled from the spec: [agent/configuration.py] is not among the
    sources. Every option is independently overridable per run and
    otherwise takes its fixed default; [defaults] stands for those fixed
    values (the model identifiers and the two small integer constants). *)
Definition from_runnable_config
    (defaults : Configuration) (config : RunnableConfig) : Configuration :=
  {| query_generator_model := query_generator_model defaults;
     reflection_model := reflection_model defaults;
     answer_model := answer_model defaults;
     number_of_initial_queries :=
       default (number_of_initial_queries defaults)
               (cfg_number_of_initial_queries config);
     max_research_loops :=
       default (max_research_loops defaults) (cfg_max_research_loops config) |}.

(** The process environment read through [os.getenv]. *)
Record Env := {
  TAVILY_API_KEY : option string;
  OPENAI_API_KEY : option string }.

(** The test of [generate_query], [reflection] and [finalize_answer]:
    no Tavily key, or the placeholder. *)
Definition demo_mode (env : Env) : bool :=
  negb (Py.truthy_opt_str (TAVILY_API_KEY env))
  || bool_decide (TAVILY_API_KEY env = Some "your_tavily_api_key_here").

(** The test of [web_research], which also looks at the OpenAI key. *)
Definition demo_mode_web (env : Env) : bool :=
  demo_mode env
  || negb (Py.truthy_opt_str (OPENAI_API_KEY env))
  || bool_decide (OPENAI_API_KEY env = Some "your_openai_api_key_here").

(** One raw result of the search provider and its whole answer; an
    absent key reads as the empty string. *)
Record TavilyResult := {
  r_url : string; r_title : string; r_content : string; r_raw_content : string }.
Record TavilyResponse := {
  results : list TavilyResult; tavily_answer : string }.

(** The structured output of the reflection model. *)
Record Reflection := {
  refl_is_sufficient : bool;
  refl_knowledge_gap : string;
  refl_follow_up_queries : list string }.

(** The graph state, the typed dictionary [OverallState]. A key that a
    run has not written yet is [None]; the four accumulating keys start
    as empty lists. *)
Record OverallState := {
  messages : list AnyMessage;
  search_query : list string;
  web_research_result : list string;
  sources_gathered : list Source;
  initial_search_query_count : option Z;
  st_max_research_loops : option Z;
  research_loop_count : option Z;
  reasoning_model : option string }.

(** The external collaborators of a run that is not in demo mode: the
    models behind [ChatOpenAI] and the Tavily client, each as the value
    it answers with. The reflection model sees the state of the call, so
    that its verdicts are arbitrary from one invocation to the next. *)
Record Collaborators := {
  current_date : string;
  query_llm : string -> string -> Z -> list string;
  tavily_search : string -> TavilyResponse;
  summary_llm : string -> TavilyResponse -> string;
  reflection_llm : string -> OverallState -> Reflection;
  answer_llm : string -> OverallState -> string }.

(** *** Nodes *)

(** [range(n)]. *)
Definition range (n : Z) : list Z := map Z.of_nat (seq 0 (Z.to_nat n)).

(** [generate_query(state, config)]: the update [{"search_query": ...}]. *)
Definition generate_query (defaults : Configuration) (env : Env)
    (co : Collaborators) (state : OverallState) (config : RunnableConfig)
  : list string :=
  let configurable := from_runnable_config defaults config in
  let initial_search_query_count :=
    default (number_of_initial_queries configurable)
            (initial_search_query_count state) in
  if demo_mode env then
    let research_topic := Utils.get_research_topic (messages state) in
    let num_queries := initial_search_query_count in
    map (fun i => "Query " +:+ Py.str_int (i + 1) +:+ " about " +:+ research_topic)
        (range num_queries)
  else
    query_llm co (query_generator_model configurable)
      (Utils.get_research_topic (messages state)) initial_search_query_count.

(** The argument of one [web_research] task, [WebSearchState], and the
    packet [Send(node, arg)] that schedules it. *)
Record WebSearchState := { ws_search_query : string; ws_id : Z }.
Record Send := { send_node : string; send_arg : WebSearchState }.

(** [continue_to_web_research(state)]. *)
Definition continue_to_web_research (state_search_query : list string)
  : list Send :=
  map (fun '(idx, search_query) =>
         {| send_node := "web_research";
            send_arg := {| ws_search_query := search_query; ws_id := idx |} |})
      (Py.enumerate state_search_query).

(** The update returned by [web_research]. *)
Record WebResearchUpdate := {
  wr_sources_gathered : list Source;
  wr_search_query : list string;
  wr_web_research_result : list string }.

Definition mock_content (search_query : string) : string :=
  "Based on research for query: " +:+ Py.dquote +:+ search_query +:+ Py.dquote
  +:+ ":" +:+ Py.newline +:+ Py.newline
  +:+ "1. This is a demo analysis of the topic" +:+ Py.newline
  +:+ "2. Key insights and current information would appear here" +:+ Py.newline
  +:+ "3. Multiple perspectives are considered in real research" +:+ Py.newline
  +:+ "4. Current trends and developments are incorporated" +:+ Py.newline
  +:+ "5. Information is up-to-date and relevant" +:+ Py.newline +:+ Py.newline
  +:+ "Note: Demo mode - configure TAVILY_API_KEY and OPENAI_API_KEY for real results.".

(** [web_research(state, config)], when no collaborator raises. *)
Definition web_research (env : Env) (co : Collaborators)
    (state : WebSearchState) : WebResearchUpdate :=
  let search_query := ws_search_query state in
  if demo_mode_web env then
    {| wr_sources_gathered :=
         [ SourceDict "https://example.com/source1"
             ("Research Source 1 for '" +:+ search_query +:+ "'");
           SourceDict "https://example.com/source2"
             ("Research Source 2 for '" +:+ search_query +:+ "'");
           SourceDict "https://example.com/source3"
             ("Research Source 3 for '" +:+ search_query +:+ "'") ];
       wr_search_query := [search_query];
       wr_web_research_result := [mock_content search_query] |}
  else
    let search_results := tavily_search co search_query in
    let sources_gathered :=
      omap (fun result =>
              if Py.truthy_str (r_url result) && Py.truthy_str (r_title result)
              then Some (SourceDict (r_url result) (r_title result))
              else None)
           (results search_results) in
    {| wr_sources_gathered := sources_gathered;
       wr_search_query := [search_query];
       wr_web_research_result := [summary_llm co search_query search_results] |}.

(** The update returned by [reflection], which is also the typed
    dictionary [ReflectionState] that [evaluate_research] reads; the
    latter looks up [max_research_loops] in it as well. *)
Record ReflectionState := {
  is_sufficient : bool;
  knowledge_gap : string;
  follow_up_queries : list string;
  rs_research_loop_count : Z;
  number_of_ran_queries : Z;
  rs_max_research_loops : option Z }.

(** [reflection(state, config)]. *)
Definition reflection (defaults : Configuration) (env : Env)
    (co : Collaborators) (state : OverallState) (config : RunnableConfig)
  : ReflectionState :=
  let configurable := from_runnable_config defaults config in
  let state :=
    {| messages := messages state;
       search_query := search_query state;
       web_research_result := web_research_result state;
       sources_gathered := sources_gathered state;
       initial_search_query_count := initial_search_query_count state;
       st_max_research_loops := st_max_research_loops state;
       research_loop_count := Some (default 0 (research_loop_count state) + 1);
       reasoning_model := reasoning_model state |} in
  let loop_count := default 0 (research_loop_count state) in
  let reasoning_model :=
    default (reflection_model configurable) (reasoning_model state) in
  if demo_mode env then
    let max_loops := max_research_loops configurable in
    if loop_count >=? max_loops then
      {| is_sufficient := true;
         knowledge_gap := "Research is sufficient for demo purposes";
         follow_up_queries := [];
         rs_research_loop_count := loop_count;
         number_of_ran_queries := Py.len (search_query state);
         rs_max_research_loops := st_max_research_loops state |}
    else
      let topic := Utils.get_research_topic (messages state) in
      {| is_sufficient := false;
         knowledge_gap := "Additional information needed about " +:+ topic;
         follow_up_queries :=
           ["More details about " +:+ topic; "Recent updates on " +:+ topic];
         rs_research_loop_count := loop_count;
         number_of_ran_queries := Py.len (search_query state);
         rs_max_research_loops := st_max_research_loops state |}
  else
    let result := reflection_llm co reasoning_model state in
    {| is_sufficient := refl_is_sufficient result;
       knowledge_gap := refl_knowledge_gap result;
       follow_up_queries := refl_follow_up_queries result;
       rs_research_loop_count := loop_count;
       number_of_ran_queries := Py.len (search_query state);
       rs_max_research_loops := st_max_research_loops state |}.

(** What a routing function returns: the name of the next node, or a
    list of packets to fan out. *)
Inductive Route :=
| Goto (node : string)
| FanOut (sends : list Send).

(** [evaluate_research(state, config)]. *)
Definition evaluate_research (defaults : Configuration)
    (state : ReflectionState) (config : RunnableConfig) : Route :=
  let configurable := from_runnable_config defaults config in
  let max_research_loops :=
    match rs_max_research_loops state with
    | Some n => n
    | None => max_research_loops configurable
    end in
  if is_sufficient state || (rs_research_loop_count state >=? max_research_loops)
  then Goto "finalize_answer"
  else
    FanOut
      (map (fun '(idx, follow_up_query) =>
              {| send_node := "web_research";
                 send_arg :=
                   {| ws_search_query := follow_up_query;
                      ws_id := number_of_ran_queries state + idx |} |})
           (Py.enumerate (follow_up_queries state))).

(** The update returned by [finalize_answer]. *)
Record FinalUpdate := {
  fin_messages : list AnyMessage;
  fin_sources_gathered : list Source }.

Definition demo_answer (research_topic : string)
    (research_results : list string) (date : string) : string :=
  "# Research Results for: " +:+ research_topic +:+ Py.newline +:+ Py.newline
  +:+ "Based on the research conducted, here are the key findings:"
  +:+ Py.newline +:+ Py.newline
  +:+ "## Summary" +:+ Py.newline
  +:+ Py.join Py.newline research_results +:+ Py.newline +:+ Py.newline
  +:+ "## Conclusion" +:+ Py.newline
  +:+ "This research provides comprehensive information about "
  +:+ research_topic
  +:+ ". The findings are based on multiple sources and current as of "
  +:+ date +:+ "." +:+ Py.newline +:+ Py.newline
  +:+ "*Note: This is a demo response. Configure your API keys for actual web research and AI-powered analysis.*"
  +:+ Py.newline.

(** [finalize_answer(state, config)]. *)
Definition finalize_answer (defaults : Configuration) (env : Env)
    (co : Collaborators) (state : OverallState) (config : RunnableConfig)
  : FinalUpdate :=
  let configurable := from_runnable_config defaults config in
  let reasoning_model :=
    if Py.truthy_opt_str (reasoning_model state)
    then default "" (reasoning_model state)
    else answer_model configurable in
  if demo_mode env then
    let research_topic := Utils.get_research_topic (messages state) in
    let research_results := web_research_result state in
    let unique_sources := sources_gathered state in
    {| fin_messages :=
         [AIMessage (demo_answer research_topic research_results (current_date co))];
       fin_sources_gathered := unique_sources |}
  else
    let result_content := answer_llm co reasoning_model state in
    let unique_sources := sources_gathered state in
    {| fin_messages := [AIMessage result_content];
       fin_sources_gathered := unique_sources |}.

(** *** The compiled graph *)

(** Modelled from the spec: [agent/state.py], which declares how an
    update is merged into the state, is not among the sources. Task
    outputs are merged by per-field append reducers: new queries, new
    summaries and new sources are appended, and messages accumulate in
    order; the round counter written by the reflection step replaces
    the previous one. *)
Definition merge_queries (st : OverallState) (upd : list string) : OverallState :=
  {| messages := messages st;
     search_query := search_query st ++ upd;
     web_research_result := web_research_result st;
     sources_gathered := sources_gathered st;
     initial_search_query_count := initial_search_query_count st;
     st_max_research_loops := st_max_research_loops st;
     research_loop_count := research_loop_count st;
     reasoning_model := reasoning_model st |}.

Definition merge_web_research (st : OverallState) (upd : WebResearchUpdate)
  : OverallState :=
  {| messages := messages st;
     search_query := search_query st ++ wr_search_query upd;
     web_research_result := web_research_result st ++ wr_web_research_result upd;
     sources_gathered := sources_gathered st ++ wr_sources_gathered upd;
     initial_search_query_count := initial_search_query_count st;
     st_max_research_loops := st_max_research_loops st;
     research_loop_count := research_loop_count st;
     reasoning_model := reasoning_model st |}.

Definition merge_reflection (st : OverallState) (upd : ReflectionState)
  : OverallState :=
  {| messages := messages st;
     search_query := search_query st;
     web_research_result := web_research_result st;
     sources_gathered := sources_gathered st;
     initial_search_query_count := initial_search_query_count st;
     st_max_research_loops := st_max_research_loops st;
     research_loop_count := Some (rs_research_loop_count upd);
     reasoning_model := reasoning_model st |}.

Definition merge_final (st : OverallState) (upd : FinalUpdate) : OverallState :=
  {| messages := messages st ++ fin_messages upd;
     search_query := search_query st;
     web_research_result := web_research_result st;
     sources_gathered := sources_gathered st ++ fin_sources_gathered upd;
     initial_search_query_count := initial_search_query_count st;
     st_max_research_loops := st_max_research_loops st;
     research_loop_count := research_loop_count st;
     reasoning_model := reasoning_model st |}.

(** What a run did, in order: a node that ran on the state, or one
    [web_research] task with its argument. *)
Inductive Event :=
| NodeRun (node : string)
| TaskRun (task : WebSearchState).

Definition task_ids (log : list Event) : list Z :=
  omap (fun ev => match ev with TaskRun t => Some (ws_id t) | NodeRun _ => None end) log.

Definition send_ids (sends : list Send) : list Z :=
  map (fun packet => ws_id (send_arg packet)) sends.

Definition ran_node (node : string) (ev : Event) : bool :=
  match ev with NodeRun n => bool_decide (n = node) | TaskRun _ => false end.

Definition count_node (node : string) (log : list Event) : nat :=
  length (List.filter (ran_node node) log).

Section Engine.

Variable defaults : Configuration.
Variable env : Env.
Variable co : Collaborators.
Variable config : RunnableConfig.

(** One round of [web_research] tasks: every packet runs the node on
    its own argument (a task reads nothing another task writes) and the
    updates are merged into the state in packet order. *)
Definition run_tasks (st : OverallState) (sends : list Send) : OverallState :=
  fold_left
    (fun s packet => merge_web_research s (web_research env co (send_arg packet)))
    sends st.

Definition log_tasks (sends : list Send) : list Event :=
  map (fun packet => TaskRun (send_arg packet)) sends.

(** The edges [web_research -> reflection] and
    [reflection -> evaluate_research -> web_research | finalize_answer -> END]:
    after the tasks of the round, [reflection] runs once on the merged
    state and [evaluate_research] routes; the only node name it returns
    is ["finalize_answer"], whose edge leads to [END]. A routing
    function that returns no packet schedules no node, and the run ends
    there. [fuel] bounds the number of rounds. *)
Fixpoint run_rounds (fuel : nat) (st : OverallState) (sends : list Send)
    (log : list Event) : option (OverallState * list Event) :=
  match sends with
  | [] => Some (st, log)
  | _ :: _ =>
    match fuel with
    | O => None
    | S fuel' =>
      let st1 := run_tasks st sends in
      let upd := reflection defaults env co st1 config in
      let st2 := merge_reflection st1 upd in
      let log2 := log ++ log_tasks sends ++ [NodeRun "reflection"] in
      match evaluate_research defaults upd config with
      | Goto _ =>
        let st3 := merge_final st2 (finalize_answer defaults env co st2 config) in
        Some (st3, log2 ++ [NodeRun "finalize_answer"])
      | FanOut sends' => run_rounds fuel' st2 sends' log2
      end
    end
  end.

(** [graph.invoke(state, config)]: the edge [START -> generate_query],
    the fan-out of [continue_to_web_research], then the rounds. *)
Definition invoke (fuel : nat) (state : OverallState)
  : option (OverallState * list Event) :=
  let st1 := merge_queries state (generate_query defaults env co state config) in
  run_rounds fuel st1 (continue_to_web_research (search_query st1))
    [NodeRun "generate_query"].

(** The round budget of a run: the per-run override of the state when
    present, else the configured value. *)
Definition max_rounds (state : OverallState) : Z :=
  match st_max_research_loops state with
  | Some n => n
  | None => max_research_loops (from_runnable_config defaults config)
  end.

(** [graph.invoke] as a total function: the rounds a run needs are
    bounded by its round budget, so this fuel is never exhausted. *)
Definition round_budget (state : OverallState) : nat :=
  Z.to_nat (Z.max 1 (max_rounds state - default 0 (research_loop_count state))).

Definition graph_invoke (state : OverallState) : OverallState * list Event :=
  match invoke (round_budget state) state with
  | Some r => r
  | None => (state, [])
  end.

End Engine.

End Graph.

(** ** app.py *)

Module App.

(** [calculate_confidence_score(sources, answer, research_loops, queries_run)]. *)
Definition calculate_confidence_score (sources : list string) (answer : string)
    (research_loops queries_run : Z) : float :=
  let base_score := 0.5%float in
  let source_score :=
    if Py.len sources >=? 3 then 0.3%float
    else if Py.len sources >=? 2 then 0.2%float
    else if Py.len sources >=? 1 then 0.1%float
    else 0.0%float in
  let answer_score :=
    if Py.len_str answer >? 500 then 0.2%float
    else if Py.len_str answer >? 200 then 0.15%float
    else if Py.len_str answer >? 50 then 0.1%float
    else 0.0%float in
  let effort_score := 0.0%float in
  let effort_score := if research_loops >=? 2 then 0.1%float else effort_score in
  let effort_score :=
    if queries_run >=? 3 then (effort_score + 0.1)%float else effort_score in
  let final_score :=
    (base_score + source_score + answer_score + effort_score)%float in
  Py.max 0.1 (Py.min 1.0 final_score).

(** The reference definition of the scorer, on the four counts. *)
Definition score (sourceCount answerLength roundCount queriesRun : Z) : float :=
  let base := 0.5%float in
  let sourceBonus :=
    if sourceCount >=? 3 then 0.3%float
    else if sourceCount >=? 2 then 0.2%float
    else if sourceCount >=? 1 then 0.1%float else 0%float in
  let answerBonus :=
    if answerLength >? 500 then 0.2%float
    else if answerLength >? 200 then 0.15%float
    else if answerLength >? 50 then 0.1%float else 0%float in
  let effortBonus :=
    ((if roundCount >=? 2 then 0.1 else 0) + (if queriesRun >=? 3 then 0.1 else 0))%float in
  let total := (base + sourceBonus + answerBonus + effortBonus)%float in
  (* clamp(total, 0.1, 1.0) *)
  if PrimFloat.ltb total 0.1 then 0.1%float
  else if PrimFloat.ltb 1.0 total then 1.0%float
  else total.

(** The request and response models. *)
Record ResearchRequest := {
  query : string;
  req_max_research_loops : option Z;
  req_reasoning_model : option string;
  req_number_of_initial_queries : option Z }.

Inductive Metadata :=
| RunMetadata (research_loops queries_run : Z)
| ErrorMetadata (error : string).

Record ResearchResponse := {
  resp_query : string;
  answer : string;
  sources : list string;
  confidence_score : float;
  agent_type : string;
  metadata : Metadata }.

(** The [config] dictionary both endpoints build from the request: an
    option is copied only when it is truthy. *)
Definition build_config (request : ResearchRequest) : Graph.RunnableConfig :=
  {| Graph.cfg_max_research_loops :=
       if Py.truthy_opt_int (req_max_research_loops request)
       then req_max_research_loops request else None;
     Graph.cfg_reasoning_model :=
       if Py.truthy_opt_str (req_reasoning_model request)
       then req_reasoning_model request else None;
     Graph.cfg_number_of_initial_queries :=
       if Py.truthy_opt_int (req_number_of_initial_queries request)
       then req_number_of_initial_queries request else None |}.

(** The initial state [{"messages": [HumanMessage(content=request.query)]}]. *)
Definition initial_state (request : ResearchRequest) : Graph.OverallState :=
  {| Graph.messages := [HumanMessage (query request)];
     Graph.search_query := [];
     Graph.web_research_result := [];
     Graph.sources_gathered := [];
     Graph.initial_search_query_count := None;
     Graph.st_max_research_loops := None;
     Graph.research_loop_count := None;
     Graph.reasoning_model := None |}.

(** The loop that formats the sources for the frontend. *)
Definition format_sources (sources_gathered : list Source) : list string :=
  fold_left
    (fun formatted_sources source =>
       match source with
       | SourceDict url title =>
         if Py.truthy_str url && Py.truthy_str title
         then formatted_sources ++ [title +:+ ": " +:+ url]
         else if Py.truthy_str url then formatted_sources ++ [url]
         else formatted_sources
       | SourceStr s => formatted_sources ++ [s]
       end)
    sources_gathered [].

(** [l[-1]] on a list. *)
Definition last_item {A} (l : list A) : Py.result A :=
  match last l with
  | Some x => Py.ret x
  | None => Py.raise "IndexError" "list index out of range"
  end.

Section Endpoint.

(** [single_agent_graph.invoke]: it returns the final state or raises. *)
Variable graph_invoke :
  Graph.OverallState -> Graph.RunnableConfig -> Py.result Graph.OverallState.

(** The body of the [try] block of [research_endpoint]. *)
Definition research_body (request : ResearchRequest) : Py.result ResearchResponse :=
  let config := build_config request in
  let state := initial_state request in
  try! result := graph_invoke state config in
  let sources_gathered := Graph.sources_gathered result in
  let formatted_sources := format_sources sources_gathered in
  try! last_message := last_item (Graph.messages result) in
  let confidence_score :=
    calculate_confidence_score formatted_sources (content last_message)
      (default 0 (Graph.research_loop_count result))
      (Py.len (Graph.search_query result)) in
  Py.ret
    {| resp_query := query request;
       answer := content last_message;
       sources := formatted_sources;
       confidence_score := confidence_score;
       agent_type := "single-agent";
       metadata :=
         RunMetadata (default 0 (Graph.research_loop_count result))
                     (Py.len (Graph.search_query result)) |}.

(** [research_endpoint(request)]: the [try] block and its handler
    [except Exception as e]. *)
Definition research_endpoint (request : ResearchRequest) : ResearchResponse :=
  match research_body request with
  | inr response => response
  | inl e =>
    {| resp_query := query request;
       answer := "Research failed: " +:+ Py.exc_str e;
       sources := [];
       confidence_score := 0.0%float;
       agent_type := "error";
       metadata := ErrorMetadata (Py.exc_str e) |}
  end.

End Endpoint.

(** *** The streaming endpoint *)

(** The data a node streams: the dictionary of the keys it wrote. *)
Record NodeData := {
  nd_messages : option (list AnyMessage);
  nd_search_query : option (list string);
  nd_web_research_result : option (list string);
  nd_sources_gathered : option (list Source);
  nd_is_sufficient : option bool;
  nd_knowledge_gap : option string;
  nd_follow_up_queries : option (list string);
  nd_research_loop_count : option Z;
  nd_number_of_ran_queries : option Z }.

(** Truth value of the dictionary: it has at least one key. *)
Definition truthy_data (d : NodeData) : bool :=
  bool_decide (is_Some (nd_messages d))
  || bool_decide (is_Some (nd_search_query d))
  || bool_decide (is_Some (nd_web_research_result d))
  || bool_decide (is_Some (nd_sources_gathered d))
  || bool_decide (is_Some (nd_is_sufficient d))
  || bool_decide (is_Some (nd_knowledge_gap d))
  || bool_decide (is_Some (nd_follow_up_queries d))
  || bool_decide (is_Some (nd_research_loop_count d))
  || bool_decide (is_Some (nd_number_of_ran_queries d)).

Definition truthy_opt_data (o : option NodeData) : bool :=
  match o with Some d => truthy_data d | None => false end.

(** One chunk of [single_agent_graph.stream]: node name to node data. *)
Definition Chunk : Type := list (string * NodeData).

Inductive StreamEvent :=
| StepEvent (step : Z) (node title data : string) (timestamp : Z)
| CompleteEvent (result : ResearchResponse)
| ErrorEvent (error : string).

(** The local variables of [generate_stream] and what it has yielded. *)
Record StreamVars := {
  step_count : Z;
  final_result : option NodeData;
  final_state : option NodeData;
  yielded : list StreamEvent }.

(** The title and data of the event of one node, and whether the node
    data becomes [final_result]. *)
Definition node_event (node_name : string) (node_data : NodeData)
  : Py.result (string * string * bool) :=
  if bool_decide (node_name = "generate_query") then
    match nd_search_query node_data with
    | Some queries =>
      Py.ret ("Generating Search Queries",
              "Generated " +:+ Py.str_int (Py.len queries) +:+ " search queries: "
              +:+ Py.join ", " (Py.list_slice_to queries 3)
              +:+ (if Py.len queries >? 3 then "..." else ""),
              false)
    | None =>
      Py.ret ("Generating Search Queries",
              "Creating optimized search queries for research", false)
    end
  else if bool_decide (node_name = "web_research") then
    match nd_search_query node_data with
    | Some (q :: _) => Py.ret ("Web Research", "Researching: " +:+ q, false)
    | Some [] => Py.raise "IndexError" "list index out of range"
    | None => Py.ret ("Web Research", "Gathering information from web sources", false)
    end
  else if bool_decide (node_name = "reflection") then
    match nd_is_sufficient node_data with
    | Some true =>
      Py.ret ("Research Complete",
              "Research is sufficient, preparing final answer", false)
    | Some false =>
      Py.ret ("Generating Search Queries",
              "Found knowledge gaps, generating "
              +:+ Py.str_int (Py.len (default [] (nd_follow_up_queries node_data)))
              +:+ " follow-up queries",
              false)
    | None => Py.ret ("Research Complete", "Analyzing research completeness", false)
    end
  else if bool_decide (node_name = "finalize_answer") then
    Py.ret ("Finalizing Answer",
            "Synthesizing research into comprehensive response", true)
  else Py.ret ("", "", false).

(** The inner loop over the items of one chunk; an exception stops it
    and is returned with what was yielded so far. *)
Fixpoint process_items (items : Chunk) (vars : StreamVars)
  : StreamVars * option Py.Exception :=
  match items with
  | [] => (vars, None)
  | (node_name, node_data) :: items' =>
    if bool_decide (node_name = "__start__") then process_items items' vars
    else if bool_decide (node_name = "__end__") then
      process_items items'
        {| step_count := step_count vars;
           final_result := final_result vars;
           final_state := Some node_data;
           yielded := yielded vars |}
    else
      match node_event node_name node_data with
      | inl e => (vars, Some e)
      | inr (event_title, event_data, is_final) =>
        process_items items'
          {| step_count := step_count vars;
             final_result := if is_final then Some node_data else final_result vars;
             final_state := final_state vars;
             yielded :=
               if Py.truthy_str event_title
               then yielded vars
                    ++ [StepEvent (step_count vars) node_name event_title
                                  event_data (step_count vars)]
               else yielded vars |}
      end
  end.

(** The outer loop over the chunks. *)
Fixpoint process_chunks (chunks : list Chunk) (vars : StreamVars)
  : StreamVars * option Py.Exception :=
  match chunks with
  | [] => (vars, None)
  | chunk :: chunks' =>
    let vars1 :=
      {| step_count := step_count vars + 1;
         final_result := final_result vars;
         final_state := final_state vars;
         yielded := yielded vars |} in
    match process_items chunk vars1 with
    | (vars2, Some e) => (vars2, Some e)
    | (vars2, None) => process_chunks chunks' vars2
    end
  end.

(** The final event built from [final_result]. *)
Definition final_event (request : ResearchRequest) (final_result : NodeData)
  : StreamEvent :=
  let sources_gathered := default [] (nd_sources_gathered final_result) in
  let formatted_sources := format_sources sources_gathered in
  let answer :=
    match nd_messages final_result with
    | Some msgs => match last msgs with Some m => content m | None => "" end
    | None => ""
    end in
  CompleteEvent
    {| resp_query := query request;
       answer := answer;
       sources := formatted_sources;
       confidence_score := 0.8%float;
       agent_type := "single-agent-streaming";
       metadata :=
         RunMetadata
           (default 0 (nd_research_loop_count final_result))
           (Py.len (default [] (nd_search_query final_result))) |}.

(** [generate_stream()], the generator behind [/research-stream]: the
    events it yields when the graph streams [chunks] and then ends, or
    raises [stream_error] after them. *)
Definition generate_stream (request : ResearchRequest) (chunks : list Chunk)
    (stream_error : option Py.Exception) : list StreamEvent :=
  let vars0 :=
    {| step_count := 0; final_result := None; final_state := None; yielded := [] |} in
  match process_chunks chunks vars0 with
  | (vars, Some e) => yielded vars ++ [ErrorEvent (Py.exc_str e)]
  | (vars, None) =>
    match stream_error with
    | Some e => yielded vars ++ [ErrorEvent (Py.exc_str e)]
    | None =>
      let final_result :=
        if negb (truthy_opt_data (final_result vars))
           && truthy_opt_data (final_state vars)
        then final_state vars else final_result vars in
      if truthy_opt_data final_result then
        match final_result with
        | Some d => yielded vars ++ [final_event request d]
        | None => yielded vars
        end
      else yielded vars
    end
  end.

End App.

(** * Specification-side definitions *)

Module Spec.

(** The line of one message, ["<Role>: <content>"]; a message that is
    neither human nor AI has no role. *)
Definition rendered_line (m : AnyMessage) : option string :=
  match m with
  | HumanMessage c => Some ("User: " +:+ c)
  | AIMessage c => Some ("Assistant: " +:+ c)
  | OtherMessage _ => None
  end.

(** Lines each followed by a newline. *)
Definition terminated_lines (lines : list string) : string :=
  fold_right (fun line rest => line +:+ Py.newline +:+ rest) "" lines.

(** The markdown link fragment of one segment and their concatenation. *)
Definition fragment (s : Utils.Segment) : string :=
  " [" +:+ Utils.label s +:+ "](" +:+ Utils.short_url s +:+ ")".
Definition marker (c : Utils.Citation) : string :=
  fold_right (fun s rest => fragment s +:+ rest) "" (Utils.segments c).

(** Descending order on (end_index, start_index): a larger end first,
    and on equal ends the larger start first. *)
Definition desc (a b : Utils.Citation) : Prop :=
  Utils.end_index b < Utils.end_index a
  \/ (Utils.end_index a = Utils.end_index b
      /\ Utils.start_index b <= Utils.start_index a).

(** Position of the first occurrence of [u] in [l], counted from [i]. *)
Fixpoint first_index_from (i : Z) (u : string) (l : list string) : option Z :=
  match l with
  | [] => None
  | x :: l' => if decide (x = u) then Some i else first_index_from (i + 1) u l'
  end.
Definition first_index (u : string) (l : list string) : option Z :=
  first_index_from 0 u l.

(** The [n] consecutive integers from [start]. *)
Fixpoint range_from (start : Z) (n : nat) : list Z :=
  match n with
  | O => []
  | S n' => start :: range_from (start + 1) n'
  end.

End Spec.

(** * Definitions used by the proofs *)

(** The text [t] built so far still starts with the first [e] characters
    of the original [text], and is at least as long. *)
Definition agrees (text t : string) (e : nat) : Prop :=
  (String.length text <= String.length t)%nat
  /\ forall k, (k <= e)%nat -> Py.str_take k t = Py.str_take k text.

(** No character of the string is a minus sign. *)
Fixpoint dash_free (s : string) : Prop :=
  match s with
  | EmptyString => True
  | String c s' => c <> "-"%char /\ dash_free s'
  end.

(** The budget [evaluate_research] compares the counter with: the
    per-run override when present, else the configured value. *)
Definition budget_of (defaults : Graph.Configuration)
    (config : Graph.RunnableConfig) (rs : Graph.ReflectionState) : Z :=
  default (Graph.max_research_loops (Graph.from_runnable_config defaults config))
          (Graph.rs_max_research_loops rs).

(** Every insufficient verdict comes with at least one follow-up query. *)
Definition follow_ups_given (defaults : Graph.Configuration) (env : Graph.Env)
    (co : Graph.Collaborators) (config : Graph.RunnableConfig) : Prop :=
  forall st,
    Graph.is_sufficient (Graph.reflection defaults env co st config) = false ->
    Graph.follow_up_queries (Graph.reflection defaults env co st config) <> [].

(** The ids issued so far and those of the pending round are strictly
    increasing, and all lie below the number of queries the state will
    hold once the round has run. *)
Definition ids_invariant (st : Graph.OverallState) (sends : list Graph.Send)
    (log : list Graph.Event) : Prop :=
  StronglySorted Z.lt (Graph.task_ids log ++ Graph.send_ids sends)
  /\ Forall (fun i => i < Py.len (Graph.search_query st) + Py.len sends)
            (Graph.task_ids log ++ Graph.send_ids sends).

(** The rounds of the run started on [state]: the state a round starts
    from, the packets it is about to run and the log so far. The first
    round is the fan-out of the planner's queries; a round whose
    reflection is routed to a fan-out is followed by the round of those
    packets. *)
Inductive round_of (defaults : Graph.Configuration) (env : Graph.Env)
    (co : Graph.Collaborators) (config : Graph.RunnableConfig)
    (state : Graph.OverallState)
  : Graph.OverallState -> list Graph.Send -> list Graph.Event -> Prop :=
| first_round :
    round_of defaults env co config state
      (Graph.merge_queries state (Graph.generate_query defaults env co state config))
      (Graph.continue_to_web_research
         (Graph.search_query
            (Graph.merge_queries state
               (Graph.generate_query defaults env co state config))))
      [Graph.NodeRun "generate_query"]
| next_round st sends log sends' :
    round_of defaults env co config state st sends log ->
    sends <> [] ->
    Graph.evaluate_research defaults
      (Graph.reflection defaults env co (Graph.run_tasks env co st sends) config)
      config
    = Graph.FanOut sends' ->
    round_of defaults env co config state
      (Graph.merge_reflection (Graph.run_tasks env co st sends)
         (Graph.reflection defaults env co (Graph.run_tasks env co st sends) config))
      sends'
      (log ++ Graph.log_tasks sends ++ [Graph.NodeRun "reflection"]).

(** A reflection update that is insufficient after one loop, with two
    follow-up queries, four queries being recorded so far. *)
Definition insufficient_update : Graph.ReflectionState :=
  {| Graph.is_sufficient := false; Graph.knowledge_gap := "";
     Graph.follow_up_queries := ["a"; "b"];
     Graph.rs_research_loop_count := 1;
     Graph.number_of_ran_queries := 4;
     Graph.rs_max_research_loops := None |}.

Definition is_step (ev : App.StreamEvent) : Prop :=
  match ev with App.StepEvent _ _ _ _ _ => True | _ => False end.

(** ** Concrete inputs *)

Definition example_citation : Utils.Citation :=
  {| Utils.start_index := 0; Utils.end_index := 3;
     Utils.segments := [{| Utils.label := "x"; Utils.short_url := "u" |}] |}.

Definition first_span : Utils.Citation :=
  {| Utils.start_index := 0; Utils.end_index := 2;
     Utils.segments := [{| Utils.label := "a"; Utils.short_url := "u1" |}] |}.
Definition second_span : Utils.Citation :=
  {| Utils.start_index := 3; Utils.end_index := 5;
     Utils.segments := [{| Utils.label := "b"; Utils.short_url := "u2" |};
                        {| Utils.label := "c"; Utils.short_url := "u3" |}] |}.

Definition demo_env : Graph.Env :=
  {| Graph.TAVILY_API_KEY := None; Graph.OPENAI_API_KEY := Some "sk-test" |}.


Definition standard_defaults : Graph.Configuration :=
  {| Graph.query_generator_model := "gpt-4o-mini";
     Graph.reflection_model := "gpt-4o-mini";
     Graph.answer_model := "gpt-4o-mini";
     Graph.number_of_initial_queries := 3;
     Graph.max_research_loops := 2 |}.

(** Collaborators whose reflection model is never satisfied and never
    proposes a follow-up query. *)
Definition stalled_collaborators : Graph.Collaborators :=
  {| Graph.current_date := "November 4, 2026";
     Graph.query_llm := fun _ topic _ => [topic];
     Graph.tavily_search := fun _ =>
       {| Graph.results := []; Graph.tavily_answer := "" |};
     Graph.summary_llm := fun q _ => q;
     Graph.reflection_llm := fun _ _ =>
       {| Graph.refl_is_sufficient := false;
          Graph.refl_knowledge_gap := "unknown";
          Graph.refl_follow_up_queries := [] |};
     Graph.answer_llm := fun _ _ => "answer" |}.



Definition quantum_request : App.ResearchRequest :=
  {| App.query := "What is quantum computing?";
     App.req_max_research_loops := Some 2;
     App.req_reasoning_model := None;
     App.req_number_of_initial_queries := Some 2 |}.

Definition failing_graph
  : Graph.OverallState -> Graph.RunnableConfig -> Py.result Graph.OverallState :=
  fun _ _ =>
    Py.raise "RuntimeError"
      "Web search failed: timeout. Please check your Tavily API key and connection.".

Definition short_final_chunk : App.Chunk :=
  [("finalize_answer",
    {| App.nd_messages := Some [AIMessage "short"];
       App.nd_search_query := None;
       App.nd_web_research_result := None;
       App.nd_sources_gathered := Some [];
       App.nd_is_sufficient := None;
       App.nd_knowledge_gap := None;
       App.nd_follow_up_queries := None;
       App.nd_research_loop_count := None;
       App.nd_number_of_ran_queries := None |})].

(** Case analysis on every integer comparison of the goal. *)
Ltac case_comparisons :=
  repeat match goal with
         | |- context [Z.geb ?a ?b] => destruct (Z.geb a b)
         | |- context [Z.gtb ?a ?b] => destruct (Z.gtb a b)
         end.

(** ** Definitions for the further properties *)


(** No two citations of the list share their (end_index, start_index). *)
Definition distinct_keys (citations : list Utils.Citation) : Prop :=
  forall x y,
    x ∈ citations -> y ∈ citations ->
    Utils.sort_key x = Utils.sort_key y -> x = y.

(** A citation that ends where [second_span] ends and starts earlier. *)
Definition wide_span : Utils.Citation :=
  {| Utils.start_index := 1; Utils.end_index := 5;
     Utils.segments := Utils.segments first_span |}.

(** What one element of [sources_gathered] is shown as, if at all. *)
Definition formatted (source : Source) : option string :=
  match source with
  | SourceDict url title =>
    if Py.truthy_str url && Py.truthy_str title then Some (title +:+ ": " +:+ url)
    else if Py.truthy_str url then Some url
    else None
  | SourceStr s => Some s
  end.

(** A source that has a url. *)
Definition has_url (source : Source) : Prop :=
  match source with SourceDict url _ => url <> "" | SourceStr _ => True end.

(** A source record with both a url and a title. *)
Definition complete_record (source : Source) : Prop :=
  exists url title, source = SourceDict url title /\ url <> "" /\ title <> "".

(** What a run that logged [new] has added to the state [st] it started
    from, [st'] being the state it ended with: one query and one summary
    per task, the counter raised by one per reflection, the sources of
    the tasks, and, if the finalizer ran, its message and its echo of
    the sources. *)
Definition run_account (st st' : Graph.OverallState) (new : list Graph.Event)
  : Prop :=
  length (Graph.search_query st')
  = (length (Graph.search_query st) + length (Graph.task_ids new))%nat
  /\ length (Graph.web_research_result st')
     = (length (Graph.web_research_result st) + length (Graph.task_ids new))%nat
  /\ Graph.research_loop_count st'
     = match Graph.count_node "reflection" new with
       | O => Graph.research_loop_count st
       | S _ =>
         Some (default 0 (Graph.research_loop_count st)
               + Z.of_nat (Graph.count_node "reflection" new))
       end
  /\ (Graph.count_node "finalize_answer" new <= 1)%nat
  /\ exists found,
       Forall complete_record found
       /\ match Graph.count_node "finalize_answer" new with
          | O =>
            Graph.messages st' = Graph.messages st
            /\ Graph.sources_gathered st' = Graph.sources_gathered st ++ found
          | S _ =>
            (exists answer,
                Graph.messages st' = Graph.messages st ++ [AIMessage answer])
            /\ Graph.sources_gathered st'
               = (Graph.sources_gathered st ++ found)
                 ++ (Graph.sources_gathered st ++ found)
          end.

(** The engine behind [single_agent_graph.invoke] when no collaborator
    raises. *)
Definition engine (defaults : Graph.Configuration) (env : Graph.Env)
    (co : Graph.Collaborators)
  : Graph.OverallState -> Graph.RunnableConfig -> Py.result Graph.OverallState :=
  fun state config => Py.ret (fst (Graph.graph_invoke defaults env co config state)).

(** A request whose initial query count is negative. *)
Definition no_query_request : App.ResearchRequest :=
  {| App.query := "What is quantum computing?";
     App.req_max_research_loops := None;
     App.req_reasoning_model := None;
     App.req_number_of_initial_queries := Some (-1) |}.

(** A request that asks for zero research loops. *)
Definition zero_loop_request : App.ResearchRequest :=
  {| App.query := "What is quantum computing?";
     App.req_max_research_loops := Some 0;
     App.req_reasoning_model := None;
     App.req_number_of_initial_queries := None |}.

(** A step event numbered between 1 and [hi], stamped with its own step
    number, with a title, and for one of the four nodes of the graph. *)
Definition numbered_step (hi : Z) (ev : App.StreamEvent) : Prop :=
  match ev with
  | App.StepEvent step node title data timestamp =>
    timestamp = step /\ 1 <= step <= hi /\ title <> ""
    /\ (node = "generate_query" \/ node = "web_research"
        \/ node = "reflection" \/ node = "finalize_answer")
  | _ => False
  end.



(** * Facts about the Python primitives *)

Section StringFacts.

Lemma append_assoc (a b c : string) : (a +:+ b) +:+ c = a +:+ (b +:+ c).
Proof. induction a as [|x a IH]; simpl; [reflexivity | now rewrite IH]. Qed.

Lemma append_empty_r (a : string) : a +:+ "" = a.
Proof. induction a as [|x a IH]; simpl; [reflexivity | now rewrite IH]. Qed.

Lemma length_append (a b : string) :
  String.length (a +:+ b) = (String.length a + String.length b)%nat.
Proof. induction a as [|x a IH]; simpl; [reflexivity | now rewrite IH]. Qed.

Lemma append_inv_head (a b c : string) : a +:+ b = a +:+ c -> b = c.
Proof. induction a as [|x a IH]; simpl; intros H; [assumption|]. injection H. auto. Qed.

Lemma str_take_drop n s : Py.str_take n s +:+ Py.str_drop n s = s.
Proof.
  revert s. induction n as [|n IH]; intros [|c s]; simpl; try reflexivity.
  now rewrite IH.
Qed.

Lemma str_take_length n s :
  (n <= String.length s)%nat -> String.length (Py.str_take n s) = n.
Proof.
  revert s. induction n as [|n IH]; intros [|c s]; simpl; intros H;
    try reflexivity; try lia.
  rewrite IH; [reflexivity | lia].
Qed.

Lemma str_take_append k a b :
  (k <= String.length a)%nat -> Py.str_take k (a +:+ b) = Py.str_take k a.
Proof.
  revert a. induction k as [|k IH]; intros a H; [reflexivity|].
  destruct a as [|c a]; simpl in *; [lia|].
  rewrite IH; [reflexivity | lia].
Qed.

Lemma str_take_take k n s :
  (k <= n)%nat -> Py.str_take k (Py.str_take n s) = Py.str_take k s.
Proof.
  revert n s. induction k as [|k IH]; intros [|n] [|c s] H; simpl;
    try reflexivity; try lia.
  rewrite IH; [reflexivity | lia].
Qed.

Lemma slice_bound_inside n e : 0 <= e <= n -> Py.slice_bound n e = e.
Proof.
  intros [H0 Hn]. unfold Py.slice_bound.
  destruct (Z.ltb_spec e 0); lia.
Qed.

Lemma slice_to_from s e : Py.slice_to s e +:+ Py.slice_from s e = s.
Proof. apply str_take_drop. Qed.

End StringFacts.

(** * The confidence scorer *)

Lemma score_range a b c d :
  PrimFloat.leb 0.1 (App.score a b c d) = true
  /\ PrimFloat.leb (App.score a b c d) 1.0 = true.
Proof.
  unfold App.score. cbv zeta. case_comparisons; vm_compute; split; reflexivity.
Qed.

Lemma calculate_confidence_score_is_score sources answer research_loops queries_run :
  App.calculate_confidence_score sources answer research_loops queries_run
  = App.score (Py.len sources) (Py.len_str answer) research_loops queries_run.
Proof.
  unfold App.calculate_confidence_score, App.score. cbv zeta.
  case_comparisons; vm_compute; reflexivity.
Qed.

(** C2. The confidence scorer is a total function of its four inputs that
    coincides with the reference definition (base 0.5, source bonus,
    answer bonus, effort bonus, clamped to [0.1, 1.0]); its value lies
    in [0.1, 1.0] for all inputs, [score(0,10,1,1) = 0.5] and
    [score(3,600,2,4) = 1.0]. *)
Theorem confidence_scorer_reference :
  (forall sources answer research_loops queries_run,
      App.calculate_confidence_score sources answer research_loops queries_run
      = App.score (Py.len sources) (Py.len_str answer) research_loops queries_run)
  /\ (forall sourceCount answerLength roundCount queriesRun,
         PrimFloat.leb 0.1 (App.score sourceCount answerLength roundCount queriesRun) = true
         /\ PrimFloat.leb (App.score sourceCount answerLength roundCount queriesRun) 1.0 = true)
  /\ (forall sources answer research_loops queries_run,
         PrimFloat.leb 0.1
           (App.calculate_confidence_score sources answer research_loops queries_run) = true
         /\ PrimFloat.leb
              (App.calculate_confidence_score sources answer research_loops queries_run)
              1.0 = true)
  /\ App.score 0 10 1 1 = 0.5%float
  /\ App.score 3 600 2 4 = 1.0%float
  /\ App.calculate_confidence_score [] "0123456789" 1 1 = 0.5%float
  /\ App.calculate_confidence_score ["a"; "b"; "c"] (String.concat "" (replicate 600 "x")) 2 4
     = 1.0%float.
Proof.
  split; [exact calculate_confidence_score_is_score|].
  split; [exact score_range|].
  split; [intros; rewrite calculate_confidence_score_is_score; apply score_range|].
  repeat split; vm_compute; reflexivity.
Qed.

(** * The research topic *)

Lemma topic_fold messages acc :
  fold_left
    (fun research_topic message =>
       match message with
       | HumanMessage c => research_topic +:+ "User: " +:+ c +:+ Py.newline
       | AIMessage c => research_topic +:+ "Assistant: " +:+ c +:+ Py.newline
       | OtherMessage _ => research_topic
       end) messages acc
  = acc +:+ Spec.terminated_lines (omap Spec.rendered_line messages).
Proof.
  revert acc. induction messages as [|m l IH]; intros acc; simpl.
  - now rewrite append_empty_r.
  - rewrite IH. destruct m; simpl; try reflexivity;
      rewrite append_assoc; simpl; rewrite append_assoc; reflexivity.
Qed.

(** C8, as stated, fails: with two messages the result ends with a
    newline, which joining the lines by newlines does not produce. *)
Lemma research_topic_not_joined :
  Utils.get_research_topic [HumanMessage "a"; AIMessage "b"]
  = "User: a" +:+ Py.newline +:+ "Assistant: b" +:+ Py.newline
  /\ Utils.get_research_topic [HumanMessage "a"; AIMessage "b"]
     <> Py.join Py.newline
          (omap Spec.rendered_line [HumanMessage "a"; AIMessage "b"]).
Proof. split; [reflexivity | vm_compute; discriminate]. Qed.

(** C8, amended. With exactly one message the topic is that message's
    content verbatim; otherwise it is, in chronological order, one line
    ["User: <content>"] or ["Assistant: <content>"] per human or AI
    message, each line followed by a newline (the last one too), and a
    message of any other class contributes nothing. *)
Theorem research_topic_lines (messages : list AnyMessage) :
  (forall m, messages = [m] -> Utils.get_research_topic messages = content m)
  /\ (length messages <> 1%nat ->
      Utils.get_research_topic messages
      = Spec.terminated_lines (omap Spec.rendered_line messages)).
Proof.
  split.
  - intros m ->. reflexivity.
  - intros Hlen. unfold Utils.get_research_topic.
    destruct messages as [|a [|b l]]; [reflexivity | now elim Hlen |].
    now rewrite topic_fold.
Qed.

Lemma research_topic_lines_witness :
  Utils.get_research_topic [OtherMessage "s"] = "s"
  /\ Utils.get_research_topic
       [HumanMessage "hi"; OtherMessage "sys"; AIMessage "yo"; HumanMessage "more"]
     = "User: hi" +:+ Py.newline +:+ "Assistant: yo" +:+ Py.newline
       +:+ "User: more" +:+ Py.newline.
Proof.
  split.
  - exact (proj1 (research_topic_lines [OtherMessage "s"]) _ eq_refl).
  - rewrite (proj2 (research_topic_lines
               [HumanMessage "hi"; OtherMessage "sys"; AIMessage "yo";
                HumanMessage "more"])).
    + reflexivity.
    + simpl. lia.
Defined.

(** * Citation markers *)

Section Sorting.

Import Utils.

Lemma key_ltb_false x y :
  key_ltb (sort_key x) (sort_key y) = false -> Spec.desc x y.
Proof.
  unfold key_ltb, sort_key, Spec.desc. simpl. intros H.
  destruct (Z.ltb_spec (end_index x) (end_index y)); [discriminate|].
  destruct (Z.eqb_spec (end_index x) (end_index y)); [|lia].
  destruct (Z.ltb_spec (start_index x) (start_index y)); [discriminate|].
  right. lia.
Qed.

Lemma key_ltb_true x y :
  key_ltb (sort_key x) (sort_key y) = true -> Spec.desc y x.
Proof.
  unfold key_ltb, sort_key, Spec.desc. simpl. intros H.
  destruct (Z.ltb_spec (end_index x) (end_index y)); [lia|].
  destruct (Z.eqb_spec (end_index x) (end_index y)); [|discriminate].
  destruct (Z.ltb_spec (start_index x) (start_index y)); [|discriminate].
  right. lia.
Qed.

Lemma desc_trans x y z : Spec.desc x y -> Spec.desc y z -> Spec.desc x z.
Proof. unfold Spec.desc. lia. Qed.

Lemma desc_end x y : Spec.desc x y -> end_index y <= end_index x.
Proof. unfold Spec.desc. lia. Qed.

Lemma insert_desc_perm x l : Permutation (x :: l) (insert_desc x l).
Proof.
  induction l as [|y l IH]; simpl; [reflexivity|].
  destruct (key_ltb (sort_key x) (sort_key y)); [|reflexivity].
  rewrite perm_swap. now apply perm_skip.
Qed.

Lemma sorted_reverse_perm l : Permutation l (sorted_reverse l).
Proof.
  induction l as [|x l IH]; simpl; [reflexivity|].
  rewrite <- insert_desc_perm. now apply perm_skip.
Qed.

Lemma insert_desc_sorted x l :
  StronglySorted Spec.desc l -> StronglySorted Spec.desc (insert_desc x l).
Proof.
  induction 1 as [|y l Hl IH Hy]; simpl.
  - repeat constructor.
  - destruct (key_ltb (sort_key x) (sort_key y)) eqn:E.
    + constructor; [exact IH|].
      rewrite <- insert_desc_perm. constructor; [|exact Hy].
      now apply key_ltb_true.
    + apply key_ltb_false in E.
      constructor; [now constructor|].
      constructor; [exact E|].
      eapply Forall_impl; [exact Hy|]. intros z. now apply desc_trans.
Qed.

Lemma sorted_reverse_sorted l : StronglySorted Spec.desc (sorted_reverse l).
Proof.
  induction l as [|x l IH]; simpl; [constructor | now apply insert_desc_sorted].
Qed.

Lemma marker_fold segs acc :
  fold_left
    (fun marker segment =>
       marker +:+ " [" +:+ label segment +:+ "](" +:+ short_url segment +:+ ")")
    segs acc
  = acc +:+ fold_right (fun s rest => Spec.fragment s +:+ rest) "" segs.
Proof.
  revert acc. induction segs as [|s segs IH]; intros acc.
  - cbn [fold_left fold_right]. now rewrite append_empty_r.
  - cbn [fold_left fold_right]. rewrite IH.
    change (" [" +:+ label s +:+ "](" +:+ short_url s +:+ ")") with (Spec.fragment s).
    now rewrite append_assoc.
Qed.

Lemma marker_to_insert_is_marker c : marker_to_insert c = Spec.marker c.
Proof. unfold marker_to_insert. now rewrite marker_fold. Qed.

End Sorting.

Section Offsets.

Import Utils.

Variable text : string.

Lemma agrees_start : agrees text text (String.length text).
Proof. split; [lia | reflexivity]. Qed.

Lemma agrees_le t e e' : (e' <= e)%nat -> agrees text t e -> agrees text t e'.
Proof. intros He [Hlen Hk]. split; [exact Hlen|]. intros k Hk'. apply Hk. lia. Qed.

Lemma agrees_slice_to t c :
  0 <= end_index c <= Py.len_str text ->
  agrees text t (Z.to_nat (end_index c)) ->
  Py.slice_to t (end_index c) = Py.slice_to text (end_index c).
Proof.
  intros Hc [Hlen Hk]. unfold Py.slice_to, Py.len_str in *.
  rewrite !slice_bound_inside by lia. now apply Hk.
Qed.

Lemma splice_agrees t c e :
  0 <= end_index c <= Py.len_str text ->
  (Z.to_nat (end_index c) <= e)%nat ->
  agrees text t e -> agrees text (splice t c) (Z.to_nat (end_index c)).
Proof.
  intros Hc He [Hlen Hk]. unfold splice, Py.slice_to, Py.slice_from, Py.len_str in *.
  rewrite !slice_bound_inside by lia.
  set (n := Z.to_nat (end_index c)).
  assert (Hn : (n <= String.length t)%nat) by lia.
  split.
  - assert (Hsplit : String.length (Py.str_take n t +:+ Py.str_drop n t)
                     = String.length t) by now rewrite str_take_drop.
    rewrite length_append in Hsplit. rewrite !length_append. lia.
  - intros k Hkn.
    rewrite str_take_append by (rewrite str_take_length; lia).
    rewrite str_take_take by exact Hkn.
    apply Hk. lia.
Qed.

Lemma fold_splice_agrees done t e c :
  agrees text t e ->
  StronglySorted Spec.desc done ->
  (forall d, d ∈ done ->
             0 <= end_index d <= Py.len_str text
             /\ (Z.to_nat (end_index d) <= e)%nat
             /\ end_index c <= end_index d) ->
  (Z.to_nat (end_index c) <= e)%nat ->
  agrees text (fold_left splice done t) (Z.to_nat (end_index c)).
Proof.
  revert t e. induction done as [|d done IH]; intros t e Ht Hs Hd Hc.
  - simpl. now apply (agrees_le t e).
  - simpl. inversion Hs as [|? ? Hs' Hfa]; subst.
    destruct (Hd d) as (Hd1 & Hd2 & Hd3); [left|].
    apply (IH _ (Z.to_nat (end_index d))).
    + now apply (splice_agrees t d e).
    + exact Hs'.
    + intros d' Hd'. destruct (Hd d') as (H1 & H2 & H3); [now right|].
      split; [lia|]. split; [|lia].
      rewrite Forall_forall in Hfa. specialize (Hfa d' Hd').
      apply desc_end in Hfa. lia.
    + lia.
Qed.

End Offsets.

Lemma fold_left_pointwise {A B} (f g : A -> B -> A) (l : list B) (a : A) :
  (forall x y, f x y = g x y) -> fold_left f l a = fold_left g l a.
Proof.
  intros Hfg. revert a. induction l as [|b l IH]; intros a; simpl;
    [reflexivity | now rewrite Hfg, IH].
Qed.

(** C3. [insert_citation_markers] processes the citations in descending
    order of (end_index, start_index) (a permutation of the input, ties
    on end_index giving the larger start_index first), splicing at each
    citation's end_index the concatenation of its segments' fragments
    [" [label](short_url)"]; on ["ABCDE"] with the citation (0, 3, x, u)
    it returns ["ABC [x](u)DE"]; and when every end_index lies within
    the text, at every point of the loop the text up to the end_index of
    any citation still to be processed is the original text up to it. *)
Theorem insert_citation_markers_spec (text : string) (citations : list Utils.Citation) :
  let sorted_citations := Utils.sorted_reverse citations in
  Permutation citations sorted_citations
  /\ StronglySorted Spec.desc sorted_citations
  /\ Utils.insert_citation_markers text citations
     = fold_left
         (fun modified_text c =>
            Py.slice_to modified_text (Utils.end_index c)
            +:+ Spec.marker c
            +:+ Py.slice_from modified_text (Utils.end_index c))
         sorted_citations text
  /\ Utils.insert_citation_markers "ABCDE" [example_citation] = "ABC [x](u)DE"
  /\ ((forall c, c ∈ citations -> 0 <= Utils.end_index c <= Py.len_str text) ->
      forall processed pending,
        sorted_citations = processed ++ pending ->
        forall c, c ∈ pending ->
          Py.slice_to (fold_left Utils.splice processed text) (Utils.end_index c)
          = Py.slice_to text (Utils.end_index c)).
Proof.
  cbv zeta. split; [apply sorted_reverse_perm|].
  split; [apply sorted_reverse_sorted|].
  split.
  { unfold Utils.insert_citation_markers. apply fold_left_pointwise. intros t c.
    unfold Utils.splice. now rewrite marker_to_insert_is_marker. }
  split; [vm_compute; reflexivity|].
  intros Hrange processed pending Hsplit c Hc.
  pose proof (sorted_reverse_sorted citations) as Hsorted.
  pose proof (sorted_reverse_perm citations) as Hperm.
  rewrite Hsplit in Hsorted, Hperm.
  assert (Hin : forall d, d ∈ processed ++ pending ->
                          0 <= Utils.end_index d <= Py.len_str text).
  { intros d Hd. apply Hrange. now rewrite Hperm. }
  apply agrees_slice_to; [apply Hin, elem_of_app; now right|].
  apply (fold_splice_agrees text processed text (String.length text)).
  - apply agrees_start.
  - now apply StronglySorted_app_1_l in Hsorted.
  - intros d Hd. assert (Hd' := Hin d (proj2 (elem_of_app _ _ _) (or_introl Hd))).
    unfold Py.len_str in *. split; [lia|]. split; [lia|].
    apply desc_end. now apply (StronglySorted_app_1_elem_of _ processed pending).
  - assert (Hc' := Hin c (proj2 (elem_of_app _ _ _) (or_intror Hc))).
    unfold Py.len_str in Hc'. lia.
Qed.

Lemma insert_citation_markers_witness :
  Utils.insert_citation_markers "ABCDE" [first_span; second_span]
  = "AB [a](u1)CDE [b](u2) [c](u3)"
  /\ Py.slice_to (fold_left Utils.splice [second_span] "ABCDE")
                 (Utils.end_index first_span)
     = Py.slice_to "ABCDE" (Utils.end_index first_span).
Proof.
  split; [vm_compute; reflexivity|].
  refine (proj2 (proj2 (proj2 (proj2
            (insert_citation_markers_spec "ABCDE" [first_span; second_span]))))
            _ [second_span] [first_span] _ first_span _).
  - intros c Hc. apply list_elem_of_In in Hc. simpl in Hc.
    destruct Hc as [<-|[<-|[]]]; vm_compute; split; discriminate.
  - vm_compute. reflexivity.
  - left.
Defined.

(** * Short urls *)

Section Decimal.

Lemma pretty_N_char_no_dash x : pretty_N_char x <> "-"%char.
Proof. unfold pretty_N_char. repeat case_match; discriminate. Qed.

Lemma pretty_N_go_dash_free x s : dash_free s -> dash_free (pretty_N_go x s).
Proof.
  revert s. induction (N.lt_wf_0 x) as [x _ IH]; intros s Hs.
  destruct (decide (x = 0)%N) as [->|Hx]; [now rewrite pretty_N_go_0|].
  rewrite pretty_N_go_step by lia.
  apply IH; [apply N.div_lt; lia|].
  split; [apply pretty_N_char_no_dash | exact Hs].
Qed.

Lemma pretty_N_go_length x s :
  (String.length s <= String.length (pretty_N_go x s))%nat.
Proof.
  revert s. induction (N.lt_wf_0 x) as [x _ IH]; intros s.
  destruct (decide (x = 0)%N) as [->|Hx]; [now rewrite pretty_N_go_0|].
  rewrite pretty_N_go_step by lia.
  etransitivity; [|apply IH; apply N.div_lt; lia]. simpl. lia.
Qed.

Lemma pretty_N_dash_free (x : N) : dash_free (pretty x).
Proof.
  unfold pretty, pretty_N. destruct (decide (x = 0)%N).
  - simpl. split; [discriminate | exact I].
  - now apply pretty_N_go_dash_free.
Qed.

Lemma pretty_N_nonempty (x : N) : pretty x <> "".
Proof.
  unfold pretty, pretty_N. destruct (decide (x = 0)%N) as [|Hx]; [discriminate|].
  rewrite pretty_N_go_step by lia. intros Hempty.
  pose proof (pretty_N_go_length (x `div` 10)%N
                (String (pretty_N_char (x `mod` 10)%N) "")) as Hlen.
  rewrite Hempty in Hlen. simpl in Hlen. lia.
Qed.

Lemma dash_free_separator a b r1 r2 :
  dash_free a -> dash_free b ->
  a +:+ "-" +:+ r1 = b +:+ "-" +:+ r2 -> a = b.
Proof.
  revert b. induction a as [|c a IH]; intros [|d b] Ha Hb H; simpl in *.
  - reflexivity.
  - injection H as Hc _. destruct Hb as [Hd _]. now elim Hd.
  - injection H as Hc _. destruct Ha as [Hc' _]. now elim Hc'.
  - injection H as -> H. f_equal. apply IH; tauto.
Qed.

Lemma str_int_nonneg n :
  0 <= n -> dash_free (Py.str_int n) /\ Py.str_int n <> "".
Proof.
  intros Hn. unfold Py.str_int, pretty, pretty_Z.
  destruct n as [|p|p]; [| |lia].
  - split; [simpl; split; [discriminate | exact I] | discriminate].
  - split; [apply (pretty_N_dash_free (N.pos p)) | apply (pretty_N_nonempty (N.pos p))].
Qed.

Lemma str_int_neg n :
  n < 0 -> Py.str_int n = String "-"%char (Py.str_int (- n)).
Proof.
  intros Hn. destruct n as [|p|p]; [lia | lia | reflexivity].
Qed.

Lemma dash_free_head s r1 t :
  dash_free s -> s <> "" -> s +:+ r1 <> String "-"%char t.
Proof.
  intros Hs Hne H. destruct s as [|c s]; [now elim Hne|].
  simpl in H. injection H as -> _. destruct Hs as [Hc _]. now elim Hc.
Qed.

(** Two renderings [str(id1) + "-" + ...] and [str(id2) + "-" + ...] that
    are equal come from the same integer. *)
Lemma str_int_separator id1 id2 r1 r2 :
  Py.str_int id1 +:+ "-" +:+ r1 = Py.str_int id2 +:+ "-" +:+ r2 -> id1 = id2.
Proof.
  intros H.
  destruct (Z.lt_ge_cases id1 0) as [H1|H1], (Z.lt_ge_cases id2 0) as [H2|H2].
  - rewrite (str_int_neg id1 H1), (str_int_neg id2 H2) in H.
    simpl in H. injection H as H.
    destruct (str_int_nonneg (- id1)) as [Ha _]; [lia|].
    destruct (str_int_nonneg (- id2)) as [Hb _]; [lia|].
    apply dash_free_separator in H; [|assumption..].
    apply (inj (pretty : Z -> string)) in H. lia.
  - exfalso. rewrite (str_int_neg id1 H1) in H. simpl in H.
    destruct (str_int_nonneg id2 H2) as [Hb Hne].
    symmetry in H. now apply dash_free_head in H.
  - exfalso. rewrite (str_int_neg id2 H2) in H. simpl in H.
    destruct (str_int_nonneg id1 H1) as [Ha Hne].
    now apply dash_free_head in H.
  - destruct (str_int_nonneg id1 H1) as [Ha _].
    destruct (str_int_nonneg id2 H2) as [Hb _].
    apply dash_free_separator in H; [|assumption..].
    now apply (inj (pretty : Z -> string)) in H.
Qed.

Lemma short_url_of_inj_id id1 idx1 id2 idx2 :
  Utils.short_url_of id1 idx1 = Utils.short_url_of id2 idx2 -> id1 = id2.
Proof.
  unfold Utils.short_url_of. intros H.
  apply append_inv_head in H. now apply str_int_separator in H.
Qed.

Lemma short_url_of_inj_idx id k1 k2 :
  Utils.short_url_of id k1 = Utils.short_url_of id k2 -> k1 = k2.
Proof.
  unfold Utils.short_url_of, Py.str_int. intros H.
  do 3 apply append_inv_head in H.
  now apply (inj (pretty : Z -> string)) in H.
Qed.

End Decimal.

Section Resolve.

Import Utils.

Lemma resolve_fold id (l : list string) i (m : gmap string string) u :
  fold_left
    (fun (resolved_map : gmap string string) '(idx, url) =>
       match resolved_map !! url with
       | None => <[url := short_url_of id idx]> resolved_map
       | Some _ => resolved_map
       end)
    (Py.enumerate_from i l) m !! u
  = match m !! u with
    | Some s => Some s
    | None => short_url_of id <$> Spec.first_index_from i u l
    end.
Proof.
  revert i m. induction l as [|x l IH]; intros i m; simpl.
  - now destruct (m !! u).
  - rewrite IH. destruct (m !! x) eqn:Hx.
    + destruct (m !! u) eqn:Hu; [reflexivity|].
      destruct (decide (x = u)) as [->|]; [congruence | reflexivity].
    + destruct (decide (x = u)) as [->|Hne].
      * rewrite lookup_insert_eq, Hx. reflexivity.
      * rewrite lookup_insert_ne by exact Hne. reflexivity.
Qed.

Lemma resolve_urls_lookup sites id u :
  resolve_urls sites id !! u
  = short_url_of id <$> Spec.first_index u (map site_url sites).
Proof.
  unfold resolve_urls, Py.enumerate, Spec.first_index.
  rewrite resolve_fold. now rewrite lookup_empty.
Qed.

Lemma first_index_from_occurrence (l : list string) i u n :
  l !! n = Some u ->
  exists k, Spec.first_index_from i u l = Some k /\ i <= k <= i + Z.of_nat n.
Proof.
  revert i n. induction l as [|x l IH]; intros i n Hn; [discriminate|].
  simpl. destruct (decide (x = u)) as [->|Hne].
  - exists i. split; [reflexivity | lia].
  - destruct n as [|n]; [simpl in Hn; congruence|].
    destruct (IH (i + 1) n Hn) as (k & Hk & Hrange).
    exists k. split; [exact Hk | lia].
Qed.

End Resolve.

(** C4, as stated, fails. The index of a short url is the position of
    the url's first occurrence in the input of the call, so two calls
    with the same url and the same id need not agree: alone in the input
    the url "a" gets the index 0, after another url it gets the index 1. *)
Lemma resolve_urls_not_stable :
  Utils.resolve_urls [Utils.Plain "a"] 7 !! "a"
  = Some "https://openai-search.cloud.com/id/7-0"
  /\ Utils.resolve_urls [Utils.Plain "b"; Utils.Plain "a"] 7 !! "a"
     = Some "https://openai-search.cloud.com/id/7-1"
  /\ Utils.resolve_urls [Utils.Plain "a"] 7 !! "a"
     <> Utils.resolve_urls [Utils.Plain "b"; Utils.Plain "a"] 7 !! "a".
Proof.
  assert (H1 : Utils.resolve_urls [Utils.Plain "a"] 7 !! "a"
               = Some "https://openai-search.cloud.com/id/7-0")
    by (vm_compute; reflexivity).
  assert (H2 : Utils.resolve_urls [Utils.Plain "b"; Utils.Plain "a"] 7 !! "a"
               = Some "https://openai-search.cloud.com/id/7-1")
    by (vm_compute; reflexivity).
  split; [exact H1|]. split; [exact H2|].
  rewrite H1, H2. intros H. discriminate H.
Qed.

(** C4, amended. [resolve_urls] is a function of its arguments alone that
    maps every url of the input to prefix + id + "-" + index, the index
    being the position of the url's first occurrence in this call's input
    (and nothing else is in the map); so any two occurrences of a url in
    one call get the same short url; two calls with the same id return
    the same short url for a url exactly when the url first occurs at the
    same position in both inputs (or in neither); and under two different
    ids the same url gets two different short urls. *)
Theorem resolve_urls_spec
    (sites1 sites2 : list Utils.Site) (id1 id2 : Z) (u : string) :
  Utils.resolve_urls sites1 id1 !! u
  = Utils.short_url_of id1 <$> Spec.first_index u (map Utils.site_url sites1)
  /\ (forall i j : nat,
         map Utils.site_url sites1 !! i = Some u ->
         map Utils.site_url sites1 !! j = Some u ->
         exists k, 0 <= k <= Z.of_nat i /\ k <= Z.of_nat j
                   /\ Utils.resolve_urls sites1 id1 !! u
                      = Some (Utils.prefix +:+ Py.str_int id1 +:+ "-" +:+ Py.str_int k))
  /\ (id1 = id2 ->
      (Utils.resolve_urls sites1 id1 !! u = Utils.resolve_urls sites2 id2 !! u
       <-> Spec.first_index u (map Utils.site_url sites1)
           = Spec.first_index u (map Utils.site_url sites2)))
  /\ (id1 <> id2 ->
      forall s1 s2,
        Utils.resolve_urls sites1 id1 !! u = Some s1 ->
        Utils.resolve_urls sites2 id2 !! u = Some s2 ->
        s1 <> s2).
Proof.
  split; [apply resolve_urls_lookup|].
  split.
  { intros i j Hi Hj. rewrite resolve_urls_lookup. unfold Spec.first_index.
    destruct (first_index_from_occurrence _ 0 u i Hi) as (k & Hk & Hki).
    destruct (first_index_from_occurrence _ 0 u j Hj) as (k' & Hk' & Hkj).
    exists k. rewrite Hk in *. injection Hk' as <-.
    repeat split; try lia. }
  split.
  { intros ->. rewrite !resolve_urls_lookup. split.
    - destruct (Spec.first_index u (map Utils.site_url sites1)) as [k1|],
               (Spec.first_index u (map Utils.site_url sites2)) as [k2|];
        cbn; intros H; try discriminate H; [|reflexivity].
      apply (inj Some) in H. apply short_url_of_inj_idx in H. now subst.
    - now intros ->. }
  intros Hid s1 s2. rewrite !resolve_urls_lookup.
  destruct (Spec.first_index u (map Utils.site_url sites1)) as [k1|]; [|discriminate].
  destruct (Spec.first_index u (map Utils.site_url sites2)) as [k2|]; [|discriminate].
  simpl. intros [= <-] [= <-] Heq. apply Hid.
  now apply short_url_of_inj_id in Heq.
Qed.

Lemma resolve_urls_witness :
  Utils.resolve_urls [Utils.Plain "a"; Utils.Grounded "b"; Utils.Plain "a"] 7 !! "a"
  = Some "https://openai-search.cloud.com/id/7-0"
  /\ Utils.resolve_urls [Utils.Plain "a"; Utils.Grounded "b"; Utils.Plain "a"] 7 !! "a"
     = Utils.resolve_urls [Utils.Plain "a"] 7 !! "a"
  /\ Spec.first_index "a" (map Utils.site_url [Utils.Plain "a"])
     <> Spec.first_index "a" (map Utils.site_url [Utils.Plain "b"; Utils.Plain "a"])
  /\ "https://openai-search.cloud.com/id/7-0" <> "https://openai-search.cloud.com/id/8-1".
Proof.
  pose proof (resolve_urls_spec
                [Utils.Plain "a"; Utils.Grounded "b"; Utils.Plain "a"]
                [Utils.Plain "a"] 7 7 "a") as (_ & Hocc & Hsame & _).
  pose proof (resolve_urls_spec
                [Utils.Plain "a"; Utils.Grounded "b"; Utils.Plain "a"]
                [Utils.Plain "b"; Utils.Plain "a"] 7 8 "a") as (_ & _ & _ & Hdiff).
  split; [|split; [|split]].
  - destruct (Hocc 0%nat 2%nat eq_refl eq_refl) as (k & Hk0 & _ & Hk).
    rewrite Hk. replace k with 0 by lia. reflexivity.
  - apply (Hsame eq_refl). reflexivity.
  - vm_compute. discriminate.
  - apply Hdiff; [lia | vm_compute; reflexivity | vm_compute; reflexivity].
Defined.

(** * The research loop *)

Section LogFacts.

Import Graph.

Lemma count_node_app node (a b : list Event) :
  count_node node (a ++ b) = (count_node node a + count_node node b)%nat.
Proof. unfold count_node. now rewrite List.filter_app, length_app. Qed.

Lemma count_node_tasks node sends :
  count_node node (log_tasks sends) = 0%nat.
Proof. unfold count_node, log_tasks. now induction sends. Qed.

Lemma task_ids_app (a b : list Event) :
  task_ids (a ++ b) = task_ids a ++ task_ids b.
Proof. unfold task_ids. apply omap_app. Qed.

Lemma task_ids_tasks sends : task_ids (log_tasks sends) = send_ids sends.
Proof.
  unfold task_ids, log_tasks, send_ids.
  induction sends as [|s sends IH]; [reflexivity|]. simpl. now f_equal.
Qed.

Lemma last_app_some {A} (l1 l2 : list A) x :
  last l2 = Some x -> last (l1 ++ l2) = Some x.
Proof.
  intros H. destruct l2 as [|y l2]; [discriminate|].
  induction l1 as [|z l1 IH]; [exact H|].
  simpl. destruct (l1 ++ y :: l2) eqn:E; [now destruct l1 | exact IH].
Qed.

Lemma length_enumerate_from {A} i (l : list A) :
  length (Py.enumerate_from i l) = length l.
Proof. revert i. induction l as [|x l IH]; intros i; simpl; [reflexivity | now rewrite IH]. Qed.

Lemma range_from_sorted start n : StronglySorted Z.lt (Spec.range_from start n).
Proof.
  revert start. induction n as [|n IH]; intros start; simpl; constructor.
  - apply IH.
  - assert (H : forall k m, start < m -> Forall (Z.lt start) (Spec.range_from m k)).
    { clear. intros k. induction k as [|k IHk]; intros m Hm; simpl; constructor.
      - exact Hm.
      - apply IHk. lia. }
    apply H. lia.
Qed.

Lemma range_from_bounds start n :
  Forall (fun i => start <= i < start + Z.of_nat n) (Spec.range_from start n).
Proof.
  revert start. induction n as [|n IH]; intros start; simpl; constructor.
  - lia.
  - eapply Forall_impl; [apply IH|]. simpl. intros i Hi. lia.
Qed.

(** The ids of the packets built from an enumeration that starts at [i],
    offset by [base]. *)
Lemma packet_ids base i (l : list string) :
  send_ids
    (map (fun '(idx, q) =>
            {| send_node := "web_research";
               send_arg := {| ws_search_query := q; ws_id := base + idx |} |})
         (Py.enumerate_from i l))
  = Spec.range_from (base + i) (length l).
Proof.
  unfold send_ids. revert i. induction l as [|q l IH]; intros i; [reflexivity|].
  simpl. f_equal. rewrite IH. f_equal. lia.
Qed.

Lemma packet_queries base i (l : list string) :
  map (fun p => ws_search_query (send_arg p))
    (map (fun '(idx, q) =>
            {| send_node := "web_research";
               send_arg := {| ws_search_query := q; ws_id := base + idx |} |})
         (Py.enumerate_from i l))
  = l.
Proof.
  revert i. induction l as [|q l IH]; intros i; [reflexivity|].
  simpl. f_equal. apply IH.
Qed.

Lemma continue_to_web_research_ids (queries : list string) :
  send_ids (continue_to_web_research queries)
  = Spec.range_from 0 (length queries)
  /\ map (fun p => ws_search_query (send_arg p)) (continue_to_web_research queries)
     = queries
  /\ length (continue_to_web_research queries) = length queries.
Proof.
  unfold continue_to_web_research, Py.enumerate.
  assert (E : map (fun '(idx, q) =>
                     {| send_node := "web_research";
                        send_arg := {| ws_search_query := q; ws_id := idx |} |})
                  (Py.enumerate_from 0 queries)
              = map (fun '(idx, q) =>
                       {| send_node := "web_research";
                          send_arg := {| ws_search_query := q; ws_id := 0 + idx |} |})
                    (Py.enumerate_from 0 queries)).
  { apply map_ext. now intros [idx q]. }
  rewrite E. split; [apply packet_ids|]. split; [apply packet_queries|].
  rewrite <- (packet_queries 0 0 queries) at 2. now rewrite !length_map.
Qed.

End LogFacts.

Section Routing.

Import Graph.

Variable defaults : Configuration.
Variable config : RunnableConfig.

Lemma evaluate_research_cases (rs : ReflectionState) :
  ((is_sufficient rs = true \/ budget_of defaults config rs <= rs_research_loop_count rs)
   /\ evaluate_research defaults rs config = Goto "finalize_answer")
  \/ (is_sufficient rs = false
      /\ rs_research_loop_count rs < budget_of defaults config rs
      /\ evaluate_research defaults rs config
         = FanOut
             (map (fun '(idx, q) =>
                     {| send_node := "web_research";
                        send_arg :=
                          {| ws_search_query := q;
                             ws_id := number_of_ran_queries rs + idx |} |})
                  (Py.enumerate (follow_up_queries rs)))).
Proof.
  unfold evaluate_research, budget_of.
  destruct (rs_max_research_loops rs) as [n|]; simpl;
    destruct (is_sufficient rs); simpl; auto;
    match goal with
    | |- context [?a >=? ?b] => destruct (Z.geb_spec a b)
    end; [left | right | left | right]; repeat split; auto; lia.
Qed.

End Routing.

Section Rounds.

Import Graph.

Variable defaults : Configuration.
Variable env : Env.
Variable co : Collaborators.
Variable config : RunnableConfig.

#[local] Abbreviation K := (max_rounds defaults config).
#[local] Abbreviation reflect st := (reflection defaults env co st config).
#[local] Abbreviation rounds := (run_rounds defaults env co config).

Lemma web_research_query task :
  wr_search_query (web_research env co task) = [ws_search_query task].
Proof. unfold web_research. now destruct (demo_mode_web env). Qed.

Lemma run_tasks_frame st sends :
  search_query (run_tasks env co st sends)
  = search_query st ++ map (fun p => ws_search_query (send_arg p)) sends
  /\ st_max_research_loops (run_tasks env co st sends) = st_max_research_loops st
  /\ research_loop_count (run_tasks env co st sends) = research_loop_count st
  /\ messages (run_tasks env co st sends) = messages st.
Proof.
  unfold run_tasks. revert st. induction sends as [|s sends IH]; intros st.
  - cbn [fold_left map]. now rewrite app_nil_r.
  - cbn [fold_left map]. destruct (IH (merge_web_research st (web_research env co (send_arg s))))
      as (Hq & Hm & Hc & Hmsg).
    rewrite Hq, Hm, Hc, Hmsg. cbn [search_query st_max_research_loops
      research_loop_count messages merge_web_research].
    rewrite web_research_query, <- app_assoc. auto.
Qed.

Lemma reflection_frame st :
  rs_research_loop_count (reflect st) = default 0 (research_loop_count st) + 1
  /\ rs_max_research_loops (reflect st) = st_max_research_loops st
  /\ number_of_ran_queries (reflect st) = Py.len (search_query st).
Proof.
  unfold reflection. destruct (demo_mode env); [|auto].
  match goal with |- context [?a >=? ?b] => destruct (a >=? b) end; auto.
Qed.

(** The state and the reflection update after the tasks of one round. *)
Lemma round_frame st sends :
  let st1 := run_tasks env co st sends in
  let upd := reflect st1 in
  let st2 := merge_reflection st1 upd in
  K st2 = K st
  /\ budget_of defaults config upd = K st
  /\ rs_research_loop_count upd = default 0 (research_loop_count st) + 1
  /\ research_loop_count st2 = Some (default 0 (research_loop_count st) + 1)
  /\ number_of_ran_queries upd = Py.len (search_query st) + Py.len sends
  /\ Py.len (search_query st2) = Py.len (search_query st) + Py.len sends.
Proof.
  cbv zeta.
  destruct (run_tasks_frame st sends) as (Hq & Hm & Hc & _).
  destruct (reflection_frame (run_tasks env co st sends)) as (Rc & Rm & Rn).
  unfold max_rounds, budget_of.
  cbn [st_max_research_loops research_loop_count search_query merge_reflection].
  rewrite Rc, Rm, Rn, Hq, Hm, Hc. unfold Py.len.
  rewrite length_app, length_map.
  repeat split; try reflexivity; try lia.
Qed.

(** Enough fuel: the run ends, after at most [max 1 (K - c)] reflection
    calls when the counter starts at [c], and the finalizer runs at most
    once; it runs exactly once, last, when the round is not empty and
    every fan-out of the run has a packet. *)
Lemma run_rounds_bound fuel :
  forall st sends log,
    (round_budget defaults config st <= fuel)%nat ->
    exists st' new,
      rounds fuel st sends log = Some (st', log ++ new)
      /\ (exists rest, new = log_tasks sends ++ rest)
      /\ Z.of_nat (count_node "reflection" new)
         <= Z.max 1 (K st - default 0 (research_loop_count st))
      /\ (sends <> [] -> (1 <= count_node "reflection" new)%nat)
      /\ (count_node "finalize_answer" new <= 1)%nat
      /\ (follow_ups_given defaults env co config -> sends <> [] ->
          count_node "finalize_answer" new = 1%nat
          /\ last new = Some (NodeRun "finalize_answer")).
Proof.
  induction fuel as [|fuel IH]; intros st sends log Hfuel;
    unfold round_budget in Hfuel; [lia|].
  destruct sends as [|s sends].
  { exists st, []. cbn [run_rounds]. rewrite app_nil_r.
    split; [reflexivity|]. split; [now exists []|].
    repeat split; try reflexivity; try (now intros); cbn; lia. }
  cbn [run_rounds].
  destruct (round_frame st (s :: sends)) as (HK & HB & HC & HC2 & HN & HL).
  cbv zeta in HK, HB, HC, HC2, HN, HL.
  set (st1 := run_tasks env co st (s :: sends)) in *.
  set (upd := reflect st1) in *.
  set (st2 := merge_reflection st1 upd) in *.
  destruct (evaluate_research_cases defaults config upd)
    as [(Hfin & ->) | (Hinsuff & Hlt & ->)].
  - eexists _, (log_tasks (s :: sends) ++ [NodeRun "reflection"]
                 ++ [NodeRun "finalize_answer"]).
    split; [now rewrite <- !app_assoc|].
    split; [now eexists|].
    rewrite !count_node_app, !count_node_tasks.
    change (count_node "reflection" [NodeRun "reflection"]) with 1%nat.
    change (count_node "reflection" [NodeRun "finalize_answer"]) with 0%nat.
    change (count_node "finalize_answer" [NodeRun "reflection"]) with 0%nat.
    change (count_node "finalize_answer" [NodeRun "finalize_answer"]) with 1%nat.
    split; [lia|]. split; [lia|]. split; [lia|].
    intros _ _. split; [lia|].
    apply last_app_some. reflexivity.
  - rewrite HB, HC in Hlt.
    destruct (IH st2
                (map (fun '(idx, q) =>
                        {| send_node := "web_research";
                           send_arg :=
                             {| ws_search_query := q;
                                ws_id := number_of_ran_queries upd + idx |} |})
                     (Py.enumerate (follow_up_queries upd)))
                (log ++ log_tasks (s :: sends) ++ [NodeRun "reflection"]))
      as (st' & new & Hrun & _ & Hrefl & _ & Hfin & Hlast).
    { unfold round_budget. rewrite HK, HC2. cbn [default]. simpl. lia. }
    rewrite HK, HC2 in Hrefl. cbn [default] in Hrefl. simpl in Hrefl.
    exists st', (log_tasks (s :: sends) ++ [NodeRun "reflection"] ++ new).
    split; [rewrite Hrun; now rewrite <- !app_assoc|].
    split; [now eexists|].
    rewrite !count_node_app, !count_node_tasks.
    change (count_node "reflection" [NodeRun "reflection"]) with 1%nat.
    change (count_node "finalize_answer" [NodeRun "reflection"]) with 0%nat.
    split; [lia|]. split; [lia|]. split; [lia|].
    intros Hgiven _.
    destruct Hlast as [Hone Hend]; [exact Hgiven| |].
    { specialize (Hgiven st1 Hinsuff). fold upd in Hgiven.
      unfold Py.enumerate. destruct (follow_up_queries upd); [now elim Hgiven | discriminate]. }
    split; [lia|].
    apply last_app_some. now apply last_app_some.
Qed.

Lemma run_rounds_ids fuel :
  forall st sends log st' log',
    ids_invariant st sends log ->
    rounds fuel st sends log = Some (st', log') ->
    StronglySorted Z.lt (task_ids log').
Proof.
  induction fuel as [|fuel IH]; intros st sends log st' log' [Hsorted Hbound] Hrun.
  { destruct sends; [|discriminate]. cbn in Hrun. injection Hrun as <- <-.
    now rewrite app_nil_r in Hsorted. }
  destruct sends as [|s sends].
  { cbn in Hrun. injection Hrun as <- <-. now rewrite app_nil_r in Hsorted. }
  cbn [run_rounds] in Hrun.
  destruct (round_frame st (s :: sends)) as (_ & _ & _ & _ & HN & HL).
  cbv zeta in HN, HL.
  set (st1 := run_tasks env co st (s :: sends)) in *.
  set (upd := reflect st1) in *.
  set (st2 := merge_reflection st1 upd) in *.
  assert (Hids : task_ids (log ++ log_tasks (s :: sends) ++ [NodeRun "reflection"])
                 = task_ids log ++ send_ids (s :: sends)).
  { rewrite !task_ids_app, task_ids_tasks. cbn [task_ids omap list_omap].
    now rewrite app_nil_r. }
  destruct (evaluate_research_cases defaults config upd)
    as [(_ & Hgo) | (_ & _ & Hfan)]; rewrite ?Hgo, ?Hfan in Hrun.
  - injection Hrun as <- <-.
    change (TaskRun (send_arg s) :: log_tasks sends ++ [NodeRun "reflection"])
      with (log_tasks (s :: sends) ++ [NodeRun "reflection"]).
    rewrite task_ids_app, Hids. cbn [task_ids omap list_omap].
    now rewrite app_nil_r.
  - apply IH in Hrun; [exact Hrun|].
    unfold ids_invariant, Py.enumerate. rewrite Hids, packet_ids, HL.
    unfold Py.len at 3. rewrite length_map.
    rewrite Z.add_0_r, HN.
    set (base := Py.len (search_query st) + Py.len (s :: sends)) in *.
    pose proof (range_from_bounds base (length (follow_up_queries upd))) as Hnew.
    split.
    + apply StronglySorted_app_2; [|exact Hsorted | apply range_from_sorted].
      intros x y Hx Hy.
      rewrite Forall_forall in Hbound, Hnew.
      specialize (Hbound x Hx). specialize (Hnew y Hy). lia.
    + apply Forall_app. split.
      * eapply Forall_impl; [exact Hbound|]. simpl. intros x Hx.
        rewrite length_enumerate_from. unfold Py.len in *. lia.
      * eapply Forall_impl; [exact Hnew|]. simpl. intros x Hx.
        rewrite length_enumerate_from. unfold Py.len in *. lia.
Qed.

End Rounds.

Section Invoke.

Import Graph.

Variable defaults : Configuration.
Variable env : Env.
Variable co : Collaborators.
Variable config : RunnableConfig.

Lemma sorted_lt_NoDup (l : list Z) : StronglySorted Z.lt l -> NoDup l.
Proof.
  induction 1 as [|x l Hl IH Hx]; constructor; [|exact IH].
  intros Hin. rewrite Forall_forall in Hx. specialize (Hx x Hin). lia.
Qed.

Lemma continue_nonempty (queries : list string) :
  queries <> [] -> continue_to_web_research queries <> [].
Proof. destruct queries; [congruence | discriminate]. Qed.

(** A run with enough fuel ends; what it logs after the planner. *)
Lemma invoke_bound state fuel :
  (round_budget defaults config state <= fuel)%nat ->
  exists st' new,
    invoke defaults env co config fuel state
    = Some (st', [NodeRun "generate_query"] ++ new)
    /\ (exists rest,
           new = log_tasks
                   (continue_to_web_research
                      (search_query state
                       ++ generate_query defaults env co state config))
                 ++ rest)
    /\ Z.of_nat (count_node "reflection" new)
       <= Z.max 1 (max_rounds defaults config state
                   - default 0 (research_loop_count state))
    /\ (count_node "finalize_answer" new <= 1)%nat
    /\ (follow_ups_given defaults env co config ->
        generate_query defaults env co state config <> [] ->
        count_node "finalize_answer" new = 1%nat
        /\ last new = Some (NodeRun "finalize_answer")).
Proof.
  intros Hfuel. unfold invoke.
  destruct (run_rounds_bound defaults env co config fuel
              (merge_queries state (generate_query defaults env co state config))
              (continue_to_web_research
                 (search_query state ++ generate_query defaults env co state config))
              [NodeRun "generate_query"] Hfuel)
    as (st' & new & Hrun & Hpre & Hrefl & _ & Hfin & Hlast).
  exists st', new. split; [exact Hrun|]. split; [exact Hpre|].
  split; [exact Hrefl|]. split; [exact Hfin|].
  intros Hgiven Hq. apply Hlast; [exact Hgiven|].
  apply continue_nonempty. destruct (search_query state); [exact Hq | discriminate].
Qed.

Lemma invoke_ids state fuel st' log' :
  invoke defaults env co config fuel state = Some (st', log') ->
  StronglySorted Z.lt (task_ids log').
Proof.
  unfold invoke. apply run_rounds_ids.
  unfold ids_invariant. cbn [search_query merge_queries].
  destruct (continue_to_web_research_ids
              (search_query state ++ generate_query defaults env co state config))
    as (Hids & _ & Hlen).
  cbn [task_ids omap list_omap]. rewrite app_nil_l, Hids.
  split; [apply range_from_sorted|].
  eapply Forall_impl; [apply range_from_bounds|]. simpl. intros i Hi.
  unfold Py.len. rewrite Hlen. lia.
Qed.

Lemma graph_invoke_run state :
  exists st' log',
    invoke defaults env co config (round_budget defaults config state) state
    = Some (st', log')
    /\ graph_invoke defaults env co config state = (st', log').
Proof.
  destruct (invoke_bound state (round_budget defaults config state))
    as (st' & new & Hrun & _); [lia|].
  exists st', ([NodeRun "generate_query"] ++ new).
  split; [exact Hrun|]. unfold graph_invoke. now rewrite Hrun.
Qed.

End Invoke.


(** ** C1 *)




(** ** C5 *)

Section RoundsOfRun.

Import Graph.

Variable defaults : Configuration.
Variable env : Env.
Variable co : Collaborators.
Variable config : RunnableConfig.

#[local] Abbreviation reflect st := (reflection defaults env co st config).

(** The packets of a fan-out carry the follow-up queries in order, with
    the ids that follow the number of queries recorded so far. *)
Lemma fan_out_packets (rs : ReflectionState) sends :
  evaluate_research defaults rs config = FanOut sends ->
  send_ids sends
  = Spec.range_from (number_of_ran_queries rs) (length (follow_up_queries rs))
  /\ map (fun p => ws_search_query (send_arg p)) sends = follow_up_queries rs.
Proof.
  intros Hfan.
  destruct (evaluate_research_cases defaults config rs)
    as [(_ & Hgo) | (_ & _ & Hfan')]; [congruence|].
  rewrite Hfan' in Hfan. injection Hfan as <-. unfold Py.enumerate. split.
  - rewrite packet_ids. now rewrite Z.add_0_r.
  - apply packet_queries.
Qed.

(** An insufficient verdict under the budget is routed to a fan-out. *)
Lemma insufficient_fans_out (rs : ReflectionState) :
  is_sufficient rs = false ->
  rs_research_loop_count rs < budget_of defaults config rs ->
  exists sends, evaluate_research defaults rs config = FanOut sends.
Proof.
  intros Hs Hlt.
  destruct (evaluate_research_cases defaults config rs)
    as [([Hc|Hc] & _) | (_ & _ & Hfan)]; [congruence | lia | eauto].
Qed.

Lemma ids_below_ran st sends log :
  ids_invariant st sends log ->
  Forall (fun i => i < number_of_ran_queries (reflect (run_tasks env co st sends)))
         (task_ids log ++ send_ids sends).
Proof.
  intros [_ Hbound].
  destruct (round_frame defaults env co config st sends) as (_ & _ & _ & _ & HN & _).
  cbv zeta in HN. now rewrite HN.
Qed.

Lemma ids_invariant_next st sends log sends' :
  ids_invariant st sends log ->
  evaluate_research defaults (reflect (run_tasks env co st sends)) config
  = FanOut sends' ->
  ids_invariant
    (merge_reflection (run_tasks env co st sends)
       (reflect (run_tasks env co st sends)))
    sends' (log ++ log_tasks sends ++ [NodeRun "reflection"]).
Proof.
  intros Hinv Hfan.
  pose proof (ids_below_ran st sends log Hinv) as Hbelow.
  destruct Hinv as [Hsorted _].
  destruct (fan_out_packets _ _ Hfan) as [Hids Hqueries].
  destruct (round_frame defaults env co config st sends) as (_ & _ & _ & _ & HN & HL).
  cbv zeta in HN, HL.
  set (upd := reflect (run_tasks env co st sends)) in *.
  assert (Hlog : task_ids (log ++ log_tasks sends ++ [NodeRun "reflection"])
                 = task_ids log ++ send_ids sends).
  { rewrite !task_ids_app, task_ids_tasks. cbn [task_ids omap list_omap].
    now rewrite app_nil_r. }
  assert (Hlen : Py.len sends' = Z.of_nat (length (follow_up_queries upd))).
  { unfold Py.len. now rewrite <- Hqueries, length_map. }
  pose proof (range_from_bounds (number_of_ran_queries upd)
                (length (follow_up_queries upd))) as Hnew.
  unfold ids_invariant. rewrite Hlog, Hids, HL, Hlen, <- HN. split.
  - apply StronglySorted_app_2; [|exact Hsorted | apply range_from_sorted].
    intros x y Hx Hy. rewrite Forall_forall in Hbelow, Hnew.
    specialize (Hbelow x Hx). specialize (Hnew y Hy). lia.
  - apply Forall_app. split.
    + eapply Forall_impl; [exact Hbelow|]. simpl. intros x Hx. lia.
    + eapply Forall_impl; [exact Hnew|]. simpl. intros x Hx. lia.
Qed.

Lemma round_of_invariant state st sends log :
  round_of defaults env co config state st sends log ->
  ids_invariant st sends log.
Proof.
  induction 1 as [|st sends log sends' _ IH _ Hfan].
  - unfold ids_invariant. cbn [search_query merge_queries].
    destruct (continue_to_web_research_ids
                (search_query state ++ generate_query defaults env co state config))
      as (Hids & _ & Hlen).
    cbn [task_ids omap list_omap]. rewrite app_nil_l, Hids.
    split; [apply range_from_sorted|].
    eapply Forall_impl; [apply range_from_bounds|]. simpl. intros i Hi.
    unfold Py.len. rewrite Hlen. lia.
  - now apply ids_invariant_next.
Qed.

(** What a run logs extends the log it was given by the tasks of the
    pending round. *)
Lemma run_rounds_extends fuel :
  forall st sends log st' log',
    run_rounds defaults env co config fuel st sends log = Some (st', log') ->
    exists rest, log' = log ++ log_tasks sends ++ rest.
Proof.
  induction fuel as [|fuel IH]; intros st sends log st' log' Hrun.
  { destruct sends; [|discriminate]. cbn in Hrun. injection Hrun as <- <-.
    exists []. cbn. now rewrite app_nil_r. }
  destruct sends as [|s sends].
  { cbn in Hrun. injection Hrun as <- <-. exists []. cbn. now rewrite app_nil_r. }
  cbn [run_rounds] in Hrun.
  destruct (evaluate_research defaults _ config) as [node|sends'].
  - apply (inj Some) in Hrun. apply pair_equal_spec in Hrun as [_ <-].
    exists [NodeRun "reflection"; NodeRun "finalize_answer"].
    change (TaskRun (send_arg s) :: log_tasks sends ++ [NodeRun "reflection"])
      with (log_tasks (s :: sends) ++ [NodeRun "reflection"]).
    now rewrite <- !app_assoc.
  - apply IH in Hrun as [rest ->].
    exists ([NodeRun "reflection"] ++ log_tasks sends' ++ rest).
    change (TaskRun (send_arg s) :: log_tasks sends ++ [NodeRun "reflection"])
      with (log_tasks (s :: sends) ++ [NodeRun "reflection"]).
    now rewrite <- !app_assoc.
Qed.

(** Every round of a run is a point the run goes through. *)
Lemma round_of_run state st sends log :
  round_of defaults env co config state st sends log ->
  forall fuel st' log',
    invoke defaults env co config fuel state = Some (st', log') ->
    exists fuel',
      run_rounds defaults env co config fuel' st sends log = Some (st', log').
Proof.
  induction 1 as [|st sends log sends' _ IH Hne Hfan]; intros fuel st' log' Hrun.
  - exists fuel. exact Hrun.
  - destruct (IH fuel st' log' Hrun) as [fuel' Hrounds].
    destruct sends as [|s sends]; [congruence|].
    destruct fuel' as [|fuel']; [discriminate|].
    exists fuel'. cbn [run_rounds] in Hrounds.
    rewrite Hfan in Hrounds. exact Hrounds.
Qed.

End RoundsOfRun.

(** C5. The initial round's tasks get the ids 0, 1, ..., K-1 in the
    order of the planned queries. A reflection that is insufficient (the
    verdict is insufficient and the loop counter is below the budget, the
    cap counting as sufficiency) is routed to a fan-out in which the
    follow-up queries get the ids number_of_ran_queries + 0, + 1, ... in
    list order, number_of_ran_queries being the length of the accumulated
    query list. In every round of a run, every id issued up to and
    including that round is below the number_of_ran_queries of the
    round's reflection, and when that reflection is insufficient the next
    round of the run is that of the follow-up queries with these ids. So
    the ids of all the tasks of a run, in the order they were issued, are
    strictly increasing: no id is issued twice; and the log of the run
    holds the tasks of every one of its rounds. *)
Theorem query_ids_strictly_increasing
    (defaults : Graph.Configuration) (env : Graph.Env) (co : Graph.Collaborators)
    (config : Graph.RunnableConfig) (rs : Graph.ReflectionState)
    (queries : list string) (state : Graph.OverallState) (fuel : nat) :
  (Graph.send_ids (Graph.continue_to_web_research queries)
   = Spec.range_from 0 (length queries)
   /\ map (fun p => Graph.ws_search_query (Graph.send_arg p))
          (Graph.continue_to_web_research queries) = queries)
  /\ (Graph.is_sufficient rs = false ->
      Graph.rs_research_loop_count rs < budget_of defaults config rs ->
      exists sends,
        Graph.evaluate_research defaults rs config = Graph.FanOut sends
        /\ Graph.send_ids sends
           = Spec.range_from (Graph.number_of_ran_queries rs)
                             (length (Graph.follow_up_queries rs))
        /\ map (fun p => Graph.ws_search_query (Graph.send_arg p)) sends
           = Graph.follow_up_queries rs)
  /\ Graph.number_of_ran_queries (Graph.reflection defaults env co state config)
     = Py.len (Graph.search_query state)
  /\ (forall st sends log,
         round_of defaults env co config state st sends log ->
         let r :=
           Graph.reflection defaults env co (Graph.run_tasks env co st sends) config in
         Forall (fun i => i < Graph.number_of_ran_queries r)
                (Graph.task_ids log ++ Graph.send_ids sends)
         /\ (sends <> [] ->
             Graph.is_sufficient r = false ->
             Graph.rs_research_loop_count r < budget_of defaults config r ->
             exists sends',
               round_of defaults env co config state
                 (Graph.merge_reflection (Graph.run_tasks env co st sends) r)
                 sends'
                 (log ++ Graph.log_tasks sends ++ [Graph.NodeRun "reflection"])
               /\ Graph.send_ids sends'
                  = Spec.range_from (Graph.number_of_ran_queries r)
                                    (length (Graph.follow_up_queries r))
               /\ map (fun p => Graph.ws_search_query (Graph.send_arg p)) sends'
                  = Graph.follow_up_queries r))
  /\ ((Graph.round_budget defaults config state <= fuel)%nat ->
      exists st' log',
        Graph.invoke defaults env co config fuel state = Some (st', log')
        /\ StronglySorted Z.lt (Graph.task_ids log')
        /\ NoDup (Graph.task_ids log')
        /\ (exists later,
               Graph.task_ids log'
               = Spec.range_from 0
                   (length (Graph.search_query state
                            ++ Graph.generate_query defaults env co state config))
                 ++ later)
        /\ (forall st sends log,
               round_of defaults env co config state st sends log ->
               exists rest, log' = log ++ Graph.log_tasks sends ++ rest)).
Proof.
  split; [|split; [|split; [|split]]].
  - destruct (continue_to_web_research_ids queries) as (H1 & H2 & _). now split.
  - intros Hs Hlt.
    destruct (insufficient_fans_out defaults config rs Hs Hlt) as [sends Hfan].
    exists sends. split; [exact Hfan|].
    exact (fan_out_packets defaults config rs sends Hfan).
  - apply reflection_frame.
  - intros st sends log Hround. cbv zeta.
    pose proof (round_of_invariant defaults env co config state _ _ _ Hround) as Hinv.
    split; [now apply ids_below_ran|].
    intros Hne Hs Hlt.
    destruct (insufficient_fans_out defaults config _ Hs Hlt) as [sends' Hfan].
    exists sends'. split; [now apply next_round|].
    exact (fan_out_packets defaults config _ sends' Hfan).
  - intros Hfuel.
    destruct (invoke_bound defaults env co config state fuel Hfuel)
      as (st' & new & Hrun & (rest & Hnew) & _).
    pose proof (invoke_ids defaults env co config state fuel _ _ Hrun) as Hsorted.
    eexists _, _. split; [exact Hrun|]. split; [exact Hsorted|].
    split; [now apply sorted_lt_NoDup|]. split.
    + exists (Graph.task_ids rest).
      rewrite Hnew, !task_ids_app, task_ids_tasks.
      destruct (continue_to_web_research_ids
                  (Graph.search_query state
                   ++ Graph.generate_query defaults env co state config))
        as (Hids & _).
      now rewrite Hids.
    + intros st sends log Hround.
      destruct (round_of_run defaults env co config state _ _ _ Hround _ _ _ Hrun)
        as [fuel' Hrounds].
      exact (run_rounds_extends defaults env co config fuel' _ _ _ _ _ Hrounds).
Qed.

Lemma query_ids_strictly_increasing_witness :
  (exists sends,
      Graph.evaluate_research standard_defaults insufficient_update
        (App.build_config quantum_request) = Graph.FanOut sends
      /\ Graph.send_ids sends = [4; 5])
  /\ exists st' log' sends' rest,
       Graph.invoke standard_defaults demo_env stalled_collaborators
         (App.build_config quantum_request) 2 (App.initial_state quantum_request)
       = Some (st', log')
       /\ StronglySorted Z.lt (Graph.task_ids log')
       /\ NoDup (Graph.task_ids log')
       /\ Graph.send_ids sends' = [4; 5]
       /\ Graph.task_ids log' = [0; 1] ++ Graph.send_ids sends' ++ Graph.task_ids rest.
Proof.
  destruct (query_ids_strictly_increasing standard_defaults demo_env
              stalled_collaborators (App.build_config quantum_request)
              insufficient_update
              ["q1"; "q2"] (App.initial_state quantum_request) 2)
    as (_ & Hfan & _ & Hround & Hrun).
  split.
  - destruct Hfan as (sends & Hroute & Hids & _);
      [reflexivity | vm_compute; reflexivity |].
    exists sends. split; [exact Hroute | exact Hids].
  - destruct (Hround _ _ _
                (first_round standard_defaults demo_env stalled_collaborators
                   (App.build_config quantum_request)
                   (App.initial_state quantum_request)))
      as (_ & Hnext).
    destruct Hnext as (sends' & Hsecond & Hids & _);
      [vm_compute; discriminate | vm_compute; reflexivity
       | vm_compute; reflexivity |].
    destruct Hrun as (st' & log' & Hinv & Hsorted & Hnodup & _ & Hlogs);
      [vm_compute; lia|].
    destruct (Hlogs _ _ _ Hsecond) as [rest Hlog].
    exists st', log', sends', rest.
    split; [exact Hinv|]. split; [exact Hsorted|]. split; [exact Hnodup|].
    split; [exact Hids|].
    rewrite Hlog, !task_ids_app, !task_ids_tasks. reflexivity.
Defined.

(** ** C6 *)

Section Scenario.

Import Graph.

Variable defaults : Configuration.
Variable env : Env.
Variable co : Collaborators.
Variable config : RunnableConfig.

Lemma run_rounds_fan_out fuel st sends log sends' :
  sends <> [] ->
  evaluate_research defaults
    (reflection defaults env co (run_tasks env co st sends) config) config
  = FanOut sends' ->
  run_rounds defaults env co config (S fuel) st sends log
  = run_rounds defaults env co config fuel
      (merge_reflection (run_tasks env co st sends)
         (reflection defaults env co (run_tasks env co st sends) config))
      sends' (log ++ log_tasks sends ++ [NodeRun "reflection"]).
Proof.
  intros Hne Hfan. destruct sends as [|s sends]; [congruence|].
  cbn [run_rounds]. now rewrite Hfan.
Qed.

Lemma run_rounds_finalize fuel st sends log node :
  sends <> [] ->
  evaluate_research defaults
    (reflection defaults env co (run_tasks env co st sends) config) config
  = Goto node ->
  run_rounds defaults env co config (S fuel) st sends log
  = Some
      (let st2 :=
         merge_reflection (run_tasks env co st sends)
           (reflection defaults env co (run_tasks env co st sends) config) in
       merge_final st2 (finalize_answer defaults env co st2 config),
       (log ++ log_tasks sends ++ [NodeRun "reflection"])
       ++ [NodeRun "finalize_answer"]).
Proof.
  intros Hne Hgo. destruct sends as [|s sends]; [congruence|].
  cbn [run_rounds]. now rewrite Hgo.
Qed.

Lemma finalize_answer_messages st :
  exists answer,
    fin_messages (finalize_answer defaults env co st config) = [AIMessage answer].
Proof. unfold finalize_answer. destruct (demo_mode env); eexists; reflexivity. Qed.

End Scenario.

(** C6: what the code does in the scenario. With two planned queries,
    a first reflection (the one that sees no counter yet) that reports
    insufficient with two follow-up queries and a second one (the one
    that sees the counter at 1) that reports sufficient, the run has two
    reflections and one finalizer call and ends with the counter at 2,
    as the claim says; but the planned queries are written to the
    accumulated query list by [generate_query] and again by each
    [web_research] task, so after round 0 the list holds four entries:
    the round-1 tasks get the ids 4 and 5, not 2 and 3, and the response
    reports queries_run = 6, not 4. *)
Theorem quantum_scenario_run
    (defaults : Graph.Configuration) (env : Graph.Env) (co : Graph.Collaborators)
    (request : App.ResearchRequest) (q1 q2 : string) :
  let config := App.build_config request in
  let state := App.initial_state request in
  Graph.generate_query defaults env co state config = [q1; q2] ->
  1 < Graph.max_rounds defaults config state ->
  (forall st, Graph.research_loop_count st = None ->
     Graph.is_sufficient (Graph.reflection defaults env co st config) = false
     /\ length (Graph.follow_up_queries (Graph.reflection defaults env co st config))
        = 2%nat) ->
  (forall st, Graph.research_loop_count st = Some 1 ->
     Graph.is_sufficient (Graph.reflection defaults env co st config) = true) ->
  exists st' log',
    Graph.graph_invoke defaults env co config state = (st', log')
    /\ Graph.task_ids log' = [0; 1; 4; 5]
    /\ Graph.count_node "reflection" log' = 2%nat
    /\ Graph.count_node "finalize_answer" log' = 1%nat
    /\ Graph.research_loop_count st' = Some 2
    /\ Py.len (Graph.search_query st') = 6
    /\ App.metadata
         (App.research_endpoint
            (fun st cfg => Py.ret (fst (Graph.graph_invoke defaults env co cfg st)))
            request)
       = App.RunMetadata 2 6.
Proof.
  intros config state Hplan HK Hfirst Hsecond.
  assert (Hrun : exists st' log',
             Graph.graph_invoke defaults env co config state = (st', log')
             /\ Graph.task_ids log' = [0; 1; 4; 5]
             /\ Graph.count_node "reflection" log' = 2%nat
             /\ Graph.count_node "finalize_answer" log' = 1%nat
             /\ Graph.research_loop_count st' = Some 2
             /\ Py.len (Graph.search_query st') = 6
             /\ exists answer, last (Graph.messages st') = Some (AIMessage answer)).
  { unfold Graph.graph_invoke, Graph.invoke. rewrite Hplan.
    assert (Hfuel : exists fuel,
               Graph.round_budget defaults config state = S (S fuel)).
    { exists (Z.to_nat (Graph.max_rounds defaults config state) - 2)%nat.
      unfold Graph.round_budget. subst state. cbn [Graph.research_loop_count
        App.initial_state default]. simpl. lia. }
    destruct Hfuel as [fuel ->].
    set (st0 := Graph.merge_queries state [q1; q2]).
    set (round0 := Graph.continue_to_web_research (Graph.search_query st0)).
    assert (Hround0 : round0 <> []) by discriminate.
    destruct (round_frame defaults env co config st0 round0)
      as (HK1 & HB1 & HC1 & HC1' & HN1 & HL1).
    cbv zeta in HK1, HB1, HC1, HC1', HN1, HL1.
    destruct (run_tasks_frame env co st0 round0) as (_ & _ & Hcount1 & _).
    set (st1 := Graph.run_tasks env co st0 round0) in *.
    set (r1 := Graph.reflection defaults env co st1 config) in *.
    destruct (Hfirst st1 Hcount1) as [Hinsuff Hfollow]. fold r1 in Hinsuff, Hfollow.
    destruct (evaluate_research_cases defaults config r1)
      as [([Hs|Hb] & _) | (_ & _ & Hfan)];
      [congruence | rewrite HB1, HC1 in Hb; cbn in Hb, HK; lia |].
    destruct (Graph.follow_up_queries r1) as [|f1 [|f2 [|f3 fs]]] eqn:Hfl;
      try discriminate Hfollow.
    rewrite (run_rounds_fan_out defaults env co config _ st0 round0 _ _ Hround0 Hfan).
    rewrite HN1.
    set (st1' := Graph.merge_reflection st1 r1) in *.
    set (round1 := map _ (Py.enumerate [f1; f2])).
    assert (Hround1 : round1 <> []) by discriminate.
    destruct (round_frame defaults env co config st1' round1)
      as (HK2 & HB2 & HC2 & HC2' & HN2 & HL2).
    cbv zeta in HK2, HB2, HC2, HC2', HN2, HL2.
    destruct (run_tasks_frame env co st1' round1) as (_ & _ & Hcount2 & Hmsg2).
    set (st2 := Graph.run_tasks env co st1' round1) in *.
    set (r2 := Graph.reflection defaults env co st2 config) in *.
    assert (Hsuff : Graph.is_sufficient r2 = true).
    { apply Hsecond. rewrite Hcount2, HC1'. reflexivity. }
    destruct (evaluate_research_cases defaults config r2)
      as [(_ & Hgo) | (Hs & _)]; [|congruence].
    rewrite (run_rounds_finalize defaults env co config _ st1' round1 _ _ Hround1 Hgo).
    eexists _, _. split; [reflexivity|].
    rewrite !task_ids_app, !count_node_app, !task_ids_tasks, !count_node_tasks.
    split; [reflexivity|]. split; [reflexivity|]. split; [reflexivity|].
    cbv zeta. cbn [Graph.research_loop_count Graph.search_query Graph.messages
                   Graph.merge_final Graph.merge_reflection].
    fold st2 r2.
    split; [rewrite HC2, HC1'; reflexivity|].
    split.
    - cbn [Graph.search_query Graph.merge_reflection] in HL2, HL1.
      rewrite HL2, HL1. reflexivity.
    - destruct (finalize_answer_messages defaults env co config
                  (Graph.merge_reflection st2 r2)) as [answer ->].
      exists answer. apply last_snoc. }
  destruct Hrun as (st' & log' & Hinv & Hids & Hrefl & Hfin & Hcount & Hlen & answer & Hlast).
  exists st', log'. repeat (split; [assumption|]).
  unfold App.research_endpoint, App.research_body. fold config state.
  cbn [Py.bind Py.ret]. rewrite Hinv. cbn [fst].
  unfold App.last_item. rewrite Hlast. cbn [Py.bind Py.ret App.metadata].
  now rewrite Hcount, Hlen.
Qed.

Lemma quantum_scenario_run_witness :
  exists st' log',
    Graph.graph_invoke standard_defaults demo_env stalled_collaborators
      (App.build_config quantum_request) (App.initial_state quantum_request)
    = (st', log')
    /\ Graph.task_ids log' = [0; 1; 4; 5]
    /\ Graph.count_node "reflection" log' = 2%nat
    /\ Graph.count_node "finalize_answer" log' = 1%nat
    /\ Graph.research_loop_count st' = Some 2
    /\ Py.len (Graph.search_query st') = 6
    /\ App.metadata
         (App.research_endpoint
            (fun st cfg =>
               Py.ret (fst (Graph.graph_invoke standard_defaults demo_env
                              stalled_collaborators cfg st)))
            quantum_request)
       = App.RunMetadata 2 6.
Proof.
  apply (quantum_scenario_run standard_defaults demo_env stalled_collaborators
           quantum_request
           "Query 1 about What is quantum computing?"
           "Query 2 about What is quantum computing?").
  - vm_compute. reflexivity.
  - vm_compute. reflexivity.
  - intros st Hst. unfold Graph.reflection. rewrite Hst.
    split; vm_compute; reflexivity.
  - intros st Hst. unfold Graph.reflection. rewrite Hst.
    vm_compute. reflexivity.
Defined.

(** * The endpoints *)

(** C7. [research_endpoint] is a total function to the response model:
    whatever exception the run raises (in [graph.invoke], or when the
    result has no message to read the answer from), the handler returns a
    response whose answer is the failure description
    ["Research failed: " + str(e)], whose sources list is empty and whose
    confidence_score is 0.0. *)
Theorem research_endpoint_degraded
    (graph_invoke :
       Graph.OverallState -> Graph.RunnableConfig -> Py.result Graph.OverallState)
    (request : App.ResearchRequest) (e : Py.Exception) :
  (graph_invoke (App.initial_state request) (App.build_config request) = inl e
   \/ (exists result,
          graph_invoke (App.initial_state request) (App.build_config request)
          = inr result
          /\ Graph.messages result = []
          /\ e = Py.raise_ "IndexError" "list index out of range")
   \/ App.research_body graph_invoke request = inl e) ->
  App.research_body graph_invoke request = inl e
  /\ App.research_endpoint graph_invoke request
     = {| App.resp_query := App.query request;
          App.answer := "Research failed: " +:+ Py.exc_str e;
          App.sources := [];
          App.confidence_score := 0.0%float;
          App.agent_type := "error";
          App.metadata := App.ErrorMetadata (Py.exc_str e) |}.
Proof.
  intros H.
  assert (Hbody : App.research_body graph_invoke request = inl e).
  { destruct H as [H | [(result & H & Hmsg & ->) | H]]; [| |exact H];
      unfold App.research_body; cbv zeta; rewrite H; cbn [Py.bind].
    - reflexivity.
    - unfold App.last_item. rewrite Hmsg. reflexivity. }
  split; [exact Hbody|].
  unfold App.research_endpoint. now rewrite Hbody.
Qed.

Lemma research_endpoint_degraded_witness :
  App.answer (App.research_endpoint failing_graph quantum_request)
  = "Research failed: Web search failed: timeout. Please check your Tavily API key and connection."
  /\ App.sources (App.research_endpoint failing_graph quantum_request) = []
  /\ App.confidence_score (App.research_endpoint failing_graph quantum_request)
     = 0.0%float.
Proof.
  destruct (research_endpoint_degraded failing_graph quantum_request
              (Py.raise_ "RuntimeError"
                 "Web search failed: timeout. Please check your Tavily API key and connection."))
    as [_ Hresp].
  - left. reflexivity.
  - rewrite Hresp. repeat split.
Defined.

(** C9. The update returned by [finalize_answer] carries the source list
    of the state it was given, unchanged: same elements, same order,
    duplicates included. *)
Theorem finalize_answer_keeps_sources
    (defaults : Graph.Configuration) (env : Graph.Env) (co : Graph.Collaborators)
    (state : Graph.OverallState) (config : Graph.RunnableConfig) :
  Graph.fin_sources_gathered (Graph.finalize_answer defaults env co state config)
  = Graph.sources_gathered state.
Proof. unfold Graph.finalize_answer. now destruct (Graph.demo_mode env). Qed.

Section Stream.

Import App.

Lemma process_items_steps items vars :
  Forall is_step (yielded vars) ->
  Forall is_step (yielded (fst (process_items items vars))).
Proof.
  revert vars. induction items as [|[node_name node_data] items IH];
    intros vars Hvars; [exact Hvars|].
  cbn [process_items].
  destruct (bool_decide (node_name = "__start__")); [now apply IH|].
  destruct (bool_decide (node_name = "__end__")); [now apply IH|].
  destruct (node_event node_name node_data) as [e|[[event_title event_data] is_final]];
    [exact Hvars|].
  apply IH. cbn [yielded].
  destruct (Py.truthy_str event_title); [|exact Hvars].
  apply Forall_app. split; [exact Hvars|]. repeat constructor.
Qed.

Lemma process_chunks_steps chunks vars :
  Forall is_step (yielded vars) ->
  Forall is_step (yielded (fst (process_chunks chunks vars))).
Proof.
  revert vars. induction chunks as [|chunk chunks IH]; intros vars Hvars;
    [exact Hvars|].
  cbn [process_chunks].
  match goal with
  | |- context [process_items chunk ?v] =>
    pose proof (process_items_steps chunk v Hvars) as Hitems;
      destruct (process_items chunk v) as [vars2 [e|]]
  end; cbn [fst] in *; [exact Hitems | now apply IH].
Qed.

End Stream.

(** C10. Every "complete" event of [/research-stream] reports the
    confidence_score 0.8, whatever the sources, the answer and the
    counters of the run are; the value is not the scorer's, which gives
    0.5 on the data of a run whose complete event reports 0.8. *)
Theorem stream_confidence_constant
    (request : App.ResearchRequest) (chunks : list App.Chunk)
    (stream_error : option Py.Exception) (result : App.ResearchResponse) :
  App.CompleteEvent result ∈ App.generate_stream request chunks stream_error ->
  App.confidence_score result = 0.8%float
  /\ (exists final,
         App.CompleteEvent result
         = App.final_event request final
         /\ last (App.generate_stream request chunks stream_error)
            = Some (App.CompleteEvent result))
  /\ (exists response,
         App.generate_stream quantum_request [short_final_chunk] None
         = [App.StepEvent 1 "finalize_answer" "Finalizing Answer"
              "Synthesizing research into comprehensive response" 1;
            App.CompleteEvent response]
         /\ App.confidence_score response = 0.8%float
         /\ App.calculate_confidence_score
              (App.sources response) (App.answer response) 0 0 = 0.5%float).
Proof.
  intros Hin.
  assert (Hsteps : Forall is_step
            (App.yielded
               (fst (App.process_chunks chunks
                       {| App.step_count := 0; App.final_result := None;
                          App.final_state := None; App.yielded := [] |}))))
    by (apply process_chunks_steps; constructor).
  assert (Hnot : forall l, Forall is_step l -> ~ App.CompleteEvent result ∈ l).
  { intros l Hl Hc. rewrite Forall_forall in Hl. exact (Hl _ Hc). }
  assert (Hmain : exists final,
             App.CompleteEvent result = App.final_event request final
             /\ last (App.generate_stream request chunks stream_error)
                = Some (App.CompleteEvent result)).
  { unfold App.generate_stream in *.
    destruct (App.process_chunks chunks _) as [vars [e|]]; cbn [fst] in Hsteps.
    - apply elem_of_app in Hin as [Hin|Hin]; [now elim (Hnot _ Hsteps)|].
      apply list_elem_of_singleton in Hin. discriminate.
    - destruct stream_error as [e|].
      + apply elem_of_app in Hin as [Hin|Hin]; [now elim (Hnot _ Hsteps)|].
        apply list_elem_of_singleton in Hin. discriminate.
      + cbv zeta in *.
        match type of Hin with
        | context [App.truthy_opt_data ?fr] =>
          destruct (App.truthy_opt_data fr); [|now elim (Hnot _ Hsteps)];
            destruct fr as [d|]; [|now elim (Hnot _ Hsteps)]
        end.
        apply elem_of_app in Hin as [Hin|Hin]; [now elim (Hnot _ Hsteps)|].
        apply list_elem_of_singleton in Hin.
        exists d. split; [exact Hin|]. rewrite Hin. apply last_snoc. }
  split; [|split; [exact Hmain|]].
  - destruct Hmain as (final & Heq & _). unfold App.final_event in Heq.
    injection Heq as ->. reflexivity.
  - eexists. split; [vm_compute; reflexivity|].
    split; vm_compute; reflexivity.
Qed.

Lemma stream_confidence_constant_witness :
  exists response,
    last (App.generate_stream quantum_request [short_final_chunk] None)
    = Some (App.CompleteEvent response)
    /\ App.confidence_score response = 0.8%float.
Proof.
  eexists. split; [vm_compute; reflexivity|].
  refine (proj1 (stream_confidence_constant quantum_request [short_final_chunk]
                   None _ _)).
  vm_compute. right. left.
Defined.

(** * Further properties of utils.py *)

Section MarkerFacts.

Import Utils.

Lemma str_take_all n s : (String.length s <= n)%nat -> Py.str_take n s = s.
Proof.
  revert n. induction s as [|c s IH]; intros [|n] H; simpl in *;
    try reflexivity; try lia.
  now rewrite IH by lia.
Qed.

Lemma str_drop_all n s : (String.length s <= n)%nat -> Py.str_drop n s = "".
Proof.
  revert n. induction s as [|c s IH]; intros [|n] H; simpl in *;
    try reflexivity; try lia.
  apply IH. lia.
Qed.

Lemma str_drop_append_exact a b : Py.str_drop (String.length a) (a +:+ b) = b.
Proof. induction a as [|c a IH]; simpl; [now destruct b | exact IH]. Qed.

Lemma str_take_append_exact a b : Py.str_take (String.length a) (a +:+ b) = a.
Proof. induction a as [|c a IH]; simpl; [now destruct b | now rewrite IH]. Qed.

Lemma splice_length t c :
  String.length (splice t c)
  = (String.length t + String.length (marker_to_insert c))%nat.
Proof.
  unfold splice. rewrite !length_append.
  pose proof (f_equal String.length (slice_to_from t (end_index c))) as H.
  rewrite length_append in H. lia.
Qed.



Lemma sorted_reverse_unique l l' :
  Permutation l l' -> distinct_keys l -> sorted_reverse l = sorted_reverse l'.
Proof.
  intros Hperm Hkeys.
  apply (StronglySorted_unique_strong Spec.desc).
  - intros x y Hx Hy Hxy Hyx. apply Hkeys.
    + now rewrite (sorted_reverse_perm l).
    + rewrite Hperm. now rewrite (sorted_reverse_perm l').
    + unfold Spec.desc, sort_key in *. f_equal; lia.
  - apply sorted_reverse_sorted.
  - apply sorted_reverse_sorted.
  - now rewrite <- (sorted_reverse_perm l), <- (sorted_reverse_perm l').
Qed.

End MarkerFacts.


(** X2. The result does not depend on the order in which the citations
    are passed, as long as no two of them have the same
    (end_index, start_index). *)
Theorem markers_order_independent
    (text : string) (citations citations' : list Utils.Citation) :
  Permutation citations citations' ->
  distinct_keys citations ->
  Utils.insert_citation_markers text citations
  = Utils.insert_citation_markers text citations'.
Proof.
  intros Hperm Hkeys. unfold Utils.insert_citation_markers.
  now rewrite (sorted_reverse_unique citations citations' Hperm Hkeys).
Qed.

Lemma markers_order_independent_witness :
  Utils.insert_citation_markers "ABCDE" [first_span; second_span]
  = Utils.insert_citation_markers "ABCDE" [second_span; first_span].
Proof.
  apply markers_order_independent.
  - apply perm_swap.
  - intros x y Hx Hy Hkey.
    apply list_elem_of_In in Hx, Hy. simpl in Hx, Hy.
    destruct Hx as [<-|[<-|[]]], Hy as [<-|[<-|[]]];
      try reflexivity; vm_compute in Hkey; discriminate.
Defined.

(** X3. An end_index outside the text is clipped the way a slice is: at
    or beyond the end of the text the marker is appended, at or below
    minus the length it is put in front, and a negative index in between
    counts from the end of the text. *)
Theorem markers_out_of_range (text : string) (c : Utils.Citation) :
  (Py.len_str text <= Utils.end_index c ->
   Utils.insert_citation_markers text [c] = text +:+ Utils.marker_to_insert c)
  /\ (Utils.end_index c <= - Py.len_str text ->
      Utils.insert_citation_markers text [c] = Utils.marker_to_insert c +:+ text)
  /\ (- Py.len_str text < Utils.end_index c < 0 ->
      Utils.insert_citation_markers text [c]
      = Py.str_take (Z.to_nat (Py.len_str text + Utils.end_index c)) text
        +:+ Utils.marker_to_insert c
        +:+ Py.str_drop (Z.to_nat (Py.len_str text + Utils.end_index c)) text).
Proof.
  change (Utils.insert_citation_markers text [c]) with (Utils.splice text c).
  unfold Utils.splice, Py.slice_to, Py.slice_from, Py.slice_bound, Py.len_str.
  split; [|split]; intros H.
  - destruct (Z.ltb_spec (Utils.end_index c) 0); [lia|].
    rewrite str_take_all, str_drop_all by lia. now rewrite append_empty_r.
  - destruct (Z.ltb_spec (Utils.end_index c) 0).
    + replace (Z.to_nat _) with 0%nat by lia. now destruct text.
    + assert (String.length text = 0%nat) as Hlen by lia.
      destruct text; [|discriminate]. simpl.
      replace (Z.to_nat _) with 0%nat by (simpl in *; lia). simpl.
      now rewrite append_empty_r.
  - destruct (Z.ltb_spec (Utils.end_index c) 0); [|lia].
    now rewrite Z.max_r by lia.
Qed.

Lemma markers_out_of_range_witness :
  Utils.insert_citation_markers "ABCDE"
    [{| Utils.start_index := 0; Utils.end_index := 9;
        Utils.segments := Utils.segments example_citation |}]
  = "ABCDE [x](u)"
  /\ Utils.insert_citation_markers "ABCDE"
       [{| Utils.start_index := 0; Utils.end_index := -7;
           Utils.segments := Utils.segments example_citation |}]
     = " [x](u)ABCDE"
  /\ Utils.insert_citation_markers "ABCDE"
       [{| Utils.start_index := 0; Utils.end_index := -1;
           Utils.segments := Utils.segments example_citation |}]
     = "ABCD [x](u)E".
Proof.
  split; [|split].
  - rewrite (proj1 (markers_out_of_range "ABCDE" _)); [reflexivity|].
    vm_compute. discriminate.
  - rewrite (proj1 (proj2 (markers_out_of_range "ABCDE" _))); [reflexivity|].
    vm_compute. discriminate.
  - rewrite (proj2 (proj2 (markers_out_of_range "ABCDE" _))); [reflexivity|].
    vm_compute. split; reflexivity.
Defined.

(** X4. Two citations that end at the same offset inside the text put
    their markers side by side at that offset, the marker of the one
    processed first (the larger start_index, or the earlier in the input
    on a full tie) coming second in the text. *)
Theorem markers_same_end (text : string) (c1 c2 : Utils.Citation) :
  Utils.end_index c1 = Utils.end_index c2 ->
  Utils.start_index c2 <= Utils.start_index c1 ->
  0 <= Utils.end_index c1 <= Py.len_str text ->
  Utils.insert_citation_markers text [c1; c2]
  = Py.slice_to text (Utils.end_index c1)
    +:+ Utils.marker_to_insert c2
    +:+ Utils.marker_to_insert c1
    +:+ Py.slice_from text (Utils.end_index c1).
Proof.
  intros Hend Hstart Hrange.
  unfold Utils.insert_citation_markers.
  assert (Hsorted : Utils.sorted_reverse [c1; c2] = [c1; c2]).
  { cbn [Utils.sorted_reverse fold_right Utils.insert_desc].
    unfold Utils.key_ltb, Utils.sort_key. cbn [fst snd].
    destruct (Z.ltb_spec (Utils.end_index c1) (Utils.end_index c2)); [lia|].
    destruct (Z.ltb_spec (Utils.start_index c1) (Utils.start_index c2)); [lia|].
    now rewrite Bool.andb_false_r. }
  rewrite Hsorted. cbn [fold_left].
  unfold Utils.splice at 1. rewrite <- Hend.
  unfold Py.slice_to, Py.slice_from, Py.len_str in *.
  rewrite (slice_bound_inside (Z.of_nat (String.length text))) by lia.
  set (n := Z.to_nat (Utils.end_index c1)).
  assert (Hn : (n <= String.length text)%nat) by lia.
  pose proof (str_take_length n text Hn) as Hlen.
  rewrite slice_bound_inside
    by (rewrite splice_length; unfold Py.len_str; lia).
  fold n. unfold Utils.splice, Py.slice_to, Py.slice_from, Py.len_str.
  rewrite (slice_bound_inside (Z.of_nat (String.length text))) by lia.
  fold n.
  rewrite <- Hlen at 1 4.
  now rewrite str_take_append_exact, str_drop_append_exact.
Qed.

Lemma markers_same_end_witness :
  Utils.insert_citation_markers "ABCDE" [second_span; wide_span]
  = "ABCDE [a](u1) [b](u2) [c](u3)".
Proof.
  rewrite (markers_same_end "ABCDE" second_span wide_span eq_refl).
  - reflexivity.
  - vm_compute. discriminate.
  - vm_compute. split; discriminate.
Defined.

Section ResolveFacts.

Import Utils.

Lemma first_index_from_found (l : list string) i u k :
  Spec.first_index_from i u l = Some k ->
  exists n : nat,
    k = i + Z.of_nat n /\ l !! n = Some u
    /\ forall j : nat, (j < n)%nat -> l !! j <> Some u.
Proof.
  revert i. induction l as [|x l IH]; intros i H; [discriminate|].
  simpl in H. destruct (decide (x = u)) as [->|Hne].
  - injection H as <-. exists 0%nat. split; [lia|]. split; [reflexivity|].
    intros j Hj. lia.
  - destruct (IH _ H) as (n & -> & Hn & Hbefore).
    exists (S n). split; [lia|]. split; [exact Hn|].
    intros [|j] Hj; simpl; [congruence | apply Hbefore; lia].
Qed.

Lemma first_index_from_none (l : list string) i u :
  Spec.first_index_from i u l = None <-> u ∉ l.
Proof.
  revert i. induction l as [|x l IH]; intros i; simpl.
  - split; [intros _ H; inversion H | reflexivity].
  - destruct (decide (x = u)) as [->|Hne].
    + split; [discriminate | intros H; elim H; left].
    + rewrite IH, not_elem_of_cons. split; [now split | tauto].
Qed.

Lemma resolve_urls_found sites id u s :
  resolve_urls sites id !! u = Some s ->
  exists k : nat,
    map site_url sites !! k = Some u
    /\ s = short_url_of id (Z.of_nat k)
    /\ forall j : nat, (j < k)%nat -> map site_url sites !! j <> Some u.
Proof.
  rewrite resolve_urls_lookup. unfold Spec.first_index.
  destruct (Spec.first_index_from 0 u (map site_url sites)) as [k|] eqn:Hk;
    [|discriminate].
  simpl. intros [= <-].
  destruct (first_index_from_found _ _ _ _ Hk) as (n & -> & Hn & Hbefore).
  exists n. now rewrite Z.add_0_l.
Qed.

End ResolveFacts.

(** X5. The map [resolve_urls] returns has exactly the urls of the input
    as keys; the short url of a key ends with the position where that
    url first occurs, so reading the input at that position gives the
    url back; and two different urls of one call never get the same
    short url. *)
Theorem resolve_urls_round_trip (sites : list Utils.Site) (id : Z) :
  (forall u, is_Some (Utils.resolve_urls sites id !! u)
             <-> u ∈ map Utils.site_url sites)
  /\ (forall u s,
         Utils.resolve_urls sites id !! u = Some s ->
         exists k : nat,
           map Utils.site_url sites !! k = Some u
           /\ s = Utils.short_url_of id (Z.of_nat k)
           /\ forall j : nat, (j < k)%nat ->
                map Utils.site_url sites !! j <> Some u)
  /\ (forall u1 u2 s,
         Utils.resolve_urls sites id !! u1 = Some s ->
         Utils.resolve_urls sites id !! u2 = Some s ->
         u1 = u2).
Proof.
  split; [|split].
  - intros u. rewrite resolve_urls_lookup. unfold Spec.first_index.
    destruct (Spec.first_index_from 0 u (map Utils.site_url sites)) as [k|] eqn:Hk.
    + split; [intros _ | intros _; now eexists].
      destruct (first_index_from_found _ _ _ _ Hk) as (n & _ & Hn & _).
      apply list_elem_of_lookup. now exists n.
    + apply first_index_from_none in Hk. split; [|tauto].
      intros [x Hx]. discriminate.
  - apply resolve_urls_found.
  - intros u1 u2 s H1 H2.
    destruct (resolve_urls_found _ _ _ _ H1) as (k1 & Hk1 & -> & _).
    destruct (resolve_urls_found _ _ _ _ H2) as (k2 & Hk2 & Heq & _).
    apply short_url_of_inj_idx in Heq.
    assert (k1 = k2) by lia. subst k2. congruence.
Qed.

Lemma resolve_urls_round_trip_witness :
  exists k : nat,
    map Utils.site_url [Utils.Plain "a"; Utils.Grounded "b"; Utils.Plain "a"] !! k
    = Some "b"
    /\ "https://openai-search.cloud.com/id/7-1"
       = Utils.short_url_of 7 (Z.of_nat k).
Proof.
  destruct (proj1 (proj2 (resolve_urls_round_trip
                            [Utils.Plain "a"; Utils.Grounded "b"; Utils.Plain "a"] 7))
              "b" "https://openai-search.cloud.com/id/7-1")
    as (k & Hk & Hs & _).
  - vm_compute. reflexivity.
  - exists k. split; assumption.
Defined.

(** * Further properties of app.py *)

Section ScoreFacts.

Lemma score_monotone a a' b b' c c' d d' :
  a <= a' -> b <= b' -> c <= c' -> d <= d' ->
  PrimFloat.leb (App.score a b c d) (App.score a' b' c' d') = true.
Proof.
  intros Ha Hb Hc Hd. unfold App.score. cbv zeta.
  destruct (Z.geb_spec a 3), (Z.geb_spec a 2), (Z.geb_spec a 1),
    (Z.geb_spec a' 3), (Z.geb_spec a' 2), (Z.geb_spec a' 1); try lia;
  destruct (Z.gtb_spec b 500), (Z.gtb_spec b 200), (Z.gtb_spec b 50),
    (Z.gtb_spec b' 500), (Z.gtb_spec b' 200), (Z.gtb_spec b' 50); try lia;
  destruct (Z.geb_spec c 2), (Z.geb_spec c' 2); try lia;
  destruct (Z.geb_spec d 3), (Z.geb_spec d' 3); try lia;
  vm_compute; reflexivity.
Qed.

Lemma score_at_least_half a b c d :
  PrimFloat.leb 0.5 (App.score a b c d) = true.
Proof.
  unfold App.score. cbv zeta. case_comparisons; vm_compute; reflexivity.
Qed.

End ScoreFacts.

(** X6. The confidence score is never below the base 0.5 (the lower
    clamp at 0.1 never applies) and never above 1.0. *)
Theorem confidence_at_least_base
    (sources : list string) (answer : string) (research_loops queries_run : Z) :
  PrimFloat.leb 0.5
    (App.calculate_confidence_score sources answer research_loops queries_run)
  = true
  /\ PrimFloat.leb
       (App.calculate_confidence_score sources answer research_loops queries_run)
       1.0
     = true.
Proof.
  rewrite calculate_confidence_score_is_score.
  split; [apply score_at_least_half | apply score_range].
Qed.

(** X7. The confidence score is monotone: more sources, a longer answer,
    more research loops and more queries never lower it. *)
Theorem confidence_monotone
    (sources sources' : list string) (answer answer' : string)
    (research_loops research_loops' queries_run queries_run' : Z) :
  (length sources <= length sources')%nat ->
  (String.length answer <= String.length answer')%nat ->
  research_loops <= research_loops' ->
  queries_run <= queries_run' ->
  PrimFloat.leb
    (App.calculate_confidence_score sources answer research_loops queries_run)
    (App.calculate_confidence_score sources' answer' research_loops' queries_run')
  = true.
Proof.
  intros Hs Ha Hl Hq. rewrite !calculate_confidence_score_is_score.
  apply score_monotone; unfold Py.len, Py.len_str; lia.
Qed.

Lemma confidence_monotone_witness :
  PrimFloat.leb
    (App.calculate_confidence_score ["a"] "short" 1 2)
    (App.calculate_confidence_score ["a"; "b"] "short answer" 2 3)
  = true.
Proof.
  apply confidence_monotone; [simpl; lia | simpl; lia | lia | lia].
Defined.

Section SourceFacts.

Lemma truthy_str_true s : Py.truthy_str s = true <-> s <> "".
Proof. destruct s; simpl; split; congruence. Qed.

Lemma format_sources_fold (l : list Source) (acc : list string) :
  fold_left
    (fun formatted_sources source =>
       match source with
       | SourceDict url title =>
         if Py.truthy_str url && Py.truthy_str title
         then formatted_sources ++ [title +:+ ": " +:+ url]
         else if Py.truthy_str url then formatted_sources ++ [url]
         else formatted_sources
       | SourceStr s => formatted_sources ++ [s]
       end) l acc
  = acc ++ omap formatted l.
Proof.
  revert acc. induction l as [|src l IH]; intros acc; cbn [fold_left omap list_omap].
  - now rewrite app_nil_r.
  - rewrite IH. destruct src as [url title|s]; cbn [formatted].
    + destruct (Py.truthy_str url && Py.truthy_str title);
        [now rewrite <- app_assoc|].
      destruct (Py.truthy_str url); [now rewrite <- app_assoc | reflexivity].
    + now rewrite <- app_assoc.
Qed.

Lemma format_sources_omap (l : list Source) :
  App.format_sources l = omap formatted l.
Proof. unfold App.format_sources. now rewrite format_sources_fold. Qed.

Lemma formatted_is_Some src : is_Some (formatted src) <-> has_url src.
Proof.
  destruct src as [url title|s]; cbn [formatted has_url].
  - rewrite <- truthy_str_true.
    destruct (Py.truthy_str url); cbn [andb].
    + destruct (Py.truthy_str title); split; intros _;
        try reflexivity; now eexists.
    + split; [intros [x Hx]; discriminate | discriminate].
  - split; [trivial | intros _; now eexists].
Qed.

Lemma omap_length_all {A B} (f : A -> option B) (l : list A) :
  (length (omap f l) <= length l)%nat
  /\ (length (omap f l) = length l <-> Forall (fun x => is_Some (f x)) l).
Proof.
  induction l as [|x l [IHle IHeq]]; cbn [omap list_omap length].
  - split; [lia|]. split; [constructor | reflexivity].
  - destruct (f x) as [y|] eqn:Hx; cbn [length].
    + split; [lia|]. rewrite Forall_cons. split.
      * intros H. split; [exists y; exact Hx|]. apply IHeq. lia.
      * intros [_ H]. f_equal. now apply IHeq.
    + split; [lia|]. rewrite Forall_cons. split; [lia|].
      intros [[y Hy] _]. congruence.
Qed.

End SourceFacts.

(** X8. [format_sources] formats every source on its own and keeps the
    order (it distributes over concatenation); it never yields more
    entries than it was given, and it yields as many exactly when every
    dictionary source has a url: the sources it drops are the
    dictionaries without a url. *)
Theorem format_sources_drops_only_urlless (a b : list Source) :
  App.format_sources (a ++ b) = App.format_sources a ++ App.format_sources b
  /\ (length (App.format_sources a) <= length a)%nat
  /\ (length (App.format_sources a) = length a <-> Forall has_url a).
Proof.
  rewrite !format_sources_omap. split; [apply omap_app|].
  destruct (omap_length_all formatted a) as [Hle Heq].
  split; [exact Hle|]. rewrite Heq.
  split; intros H; (eapply Forall_impl; [exact H|]);
    intros src; apply formatted_is_Some.
Qed.

(** * Further properties of graph.py *)

Section NodeFacts.

Import Graph.

Lemma append_inv_tail (a b c : string) : a +:+ c = b +:+ c -> a = b.
Proof.
  revert b. induction a as [|x a IH]; intros [|y b] H; simpl in H.
  - reflexivity.
  - exfalso. apply (f_equal String.length) in H.
    simpl in H. rewrite length_append in H. lia.
  - exfalso. apply (f_equal String.length) in H.
    simpl in H. rewrite length_append in H. lia.
  - injection H as -> H. f_equal. now apply IH.
Qed.

Lemma mock_query_inj topic i j :
  "Query " +:+ Py.str_int (i + 1) +:+ " about " +:+ topic
  = "Query " +:+ Py.str_int (j + 1) +:+ " about " +:+ topic ->
  i = j.
Proof.
  intros H. apply append_inv_head in H.
  rewrite <- !append_assoc in H. apply append_inv_tail in H.
  apply append_inv_tail in H.
  apply (inj (pretty : Z -> string)) in H. lia.
Qed.

Lemma live_sources_complete (rs : list TavilyResult) :
  Forall complete_record
    (omap (fun result =>
             if Py.truthy_str (r_url result) && Py.truthy_str (r_title result)
             then Some (SourceDict (r_url result) (r_title result))
             else None) rs)
  /\ (length
        (omap (fun result =>
                 if Py.truthy_str (r_url result) && Py.truthy_str (r_title result)
                 then Some (SourceDict (r_url result) (r_title result))
                 else None) rs)
      <= length rs)%nat.
Proof.
  induction rs as [|r rs [IH IHlen]]; cbn [omap list_omap length];
    [split; [constructor | lia]|].
  destruct (Py.truthy_str (r_url r)) eqn:Hu; cbn [andb];
    [destruct (Py.truthy_str (r_title r)) eqn:Ht|];
    cbn [length]; (split; [|lia]); try exact IH.
  constructor; [|exact IH].
  exists (r_url r), (r_title r). split; [reflexivity|].
  split; now apply truthy_str_true.
Qed.

Lemma complete_record_formatted src :
  complete_record src ->
  exists url title,
    src = SourceDict url title /\ formatted src = Some (title +:+ ": " +:+ url).
Proof.
  intros (url & title & -> & Hu & Ht). exists url, title. split; [reflexivity|].
  apply truthy_str_true in Hu, Ht. cbn [formatted]. now rewrite Hu, Ht.
Qed.

End NodeFacts.

(** X9. Whatever the search returns, a [web_research] task echoes
    exactly its own query, contributes exactly one summary, and records
    only sources that have both a url and a title (three of them in demo
    mode, at most one per raw result otherwise); so the endpoint's
    formatting keeps every one of them. *)
Theorem web_research_update_shape
    (env : Graph.Env) (co : Graph.Collaborators) (task : Graph.WebSearchState) :
  let update := Graph.web_research env co task in
  Graph.wr_search_query update = [Graph.ws_search_query task]
  /\ length (Graph.wr_web_research_result update) = 1%nat
  /\ Forall complete_record (Graph.wr_sources_gathered update)
  /\ (if Graph.demo_mode_web env
      then length (Graph.wr_sources_gathered update) = 3%nat
      else (length (Graph.wr_sources_gathered update)
            <= length (Graph.results
                         (Graph.tavily_search co (Graph.ws_search_query task))))%nat)
  /\ length (App.format_sources (Graph.wr_sources_gathered update))
     = length (Graph.wr_sources_gathered update).
Proof.
  cbv zeta.
  assert (Hcomplete : Forall complete_record
                        (Graph.wr_sources_gathered (Graph.web_research env co task))
                      /\ (if Graph.demo_mode_web env
                          then length (Graph.wr_sources_gathered
                                         (Graph.web_research env co task)) = 3%nat
                          else (length (Graph.wr_sources_gathered
                                          (Graph.web_research env co task))
                                <= length (Graph.results
                                             (Graph.tavily_search co
                                                (Graph.ws_search_query task))))%nat)).
  { unfold Graph.web_research. destruct (Graph.demo_mode_web env);
      cbn [Graph.wr_sources_gathered].
    - split; [|reflexivity].
      repeat constructor; eexists _, _; (split; [reflexivity|]);
        split; simpl; discriminate.
    - apply live_sources_complete. }
  destruct Hcomplete as [Hall Hlen].
  split; [apply web_research_query|].
  split; [unfold Graph.web_research; now destruct (Graph.demo_mode_web env)|].
  split; [exact Hall|]. split; [exact Hlen|].
  rewrite format_sources_omap. apply omap_length_all.
  eapply Forall_impl; [exact Hall|]. intros src Hsrc.
  destruct (complete_record_formatted src Hsrc) as (u & t & _ & ->). now eexists.
Qed.

(** X10. In demo mode the planner returns exactly as many queries as
    the initial query count asks for (none when the count is zero or
    negative), the i-th being "Query i about <topic>", and no two of
    them are equal. *)
Theorem demo_planner_queries
    (defaults : Graph.Configuration) (env : Graph.Env) (co : Graph.Collaborators)
    (state : Graph.OverallState) (config : Graph.RunnableConfig) :
  Graph.demo_mode env = true ->
  let count :=
    default (Graph.number_of_initial_queries
               (Graph.from_runnable_config defaults config))
            (Graph.initial_search_query_count state) in
  let queries := Graph.generate_query defaults env co state config in
  length queries = Z.to_nat count
  /\ NoDup queries
  /\ forall i : nat,
       (i < Z.to_nat count)%nat ->
       queries !! i
       = Some ("Query " +:+ Py.str_int (Z.of_nat i + 1) +:+ " about "
               +:+ Utils.get_research_topic (Graph.messages state)).
Proof.
  intros Hdemo count queries. subst queries.
  unfold Graph.generate_query. rewrite Hdemo. fold count.
  unfold Graph.range. split; [|split].
  - now rewrite !length_map, length_seq.
  - apply NoDup_fmap_2_strong.
    + intros x y _ _. apply mock_query_inj.
    + apply NoDup_fmap_2_strong; [intros x y _ _ H; lia | apply NoDup_seq].
  - intros i Hi.
    rewrite !list_lookup_fmap, lookup_seq_lt by exact Hi. reflexivity.
Qed.

Lemma demo_planner_queries_witness :
  Graph.generate_query standard_defaults demo_env stalled_collaborators
    (App.initial_state quantum_request) (App.build_config quantum_request) !! 1%nat
  = Some "Query 2 about What is quantum computing?".
Proof.
  destruct (demo_planner_queries standard_defaults demo_env stalled_collaborators
              (App.initial_state quantum_request)
              (App.build_config quantum_request) eq_refl)
    as (_ & _ & Hith).
  rewrite (Hith 1%nat); [reflexivity|]. vm_compute. lia.
Defined.

(** * Further properties of a run *)

Section Accounting.

Import Graph.

Variable defaults : Configuration.
Variable env : Env.
Variable co : Collaborators.
Variable config : RunnableConfig.

Lemma web_research_sources task :
  Forall complete_record (wr_sources_gathered (web_research env co task))
  /\ length (wr_web_research_result (web_research env co task)) = 1%nat.
Proof.
  unfold web_research. destruct (demo_mode_web env);
    cbn [wr_sources_gathered wr_web_research_result].
  - split; [|reflexivity].
    repeat constructor; eexists _, _; (split; [reflexivity|]);
      split; simpl; discriminate.
  - split; [apply live_sources_complete | reflexivity].
Qed.

Lemma run_tasks_growth st sends :
  length (web_research_result (run_tasks env co st sends))
  = (length (web_research_result st) + length sends)%nat
  /\ exists found,
       Forall complete_record found
       /\ sources_gathered (run_tasks env co st sends)
          = sources_gathered st ++ found.
Proof.
  unfold run_tasks. revert st. induction sends as [|s sends IH]; intros st.
  - cbn [fold_left length]. split; [lia|]. exists []. split; [constructor|].
    now rewrite app_nil_r.
  - cbn [fold_left length].
    destruct (IH (merge_web_research st (web_research env co (send_arg s))))
      as (Hlen & found & Hfound & Hsrc).
    destruct (web_research_sources (send_arg s)) as [Hcomplete Hone].
    rewrite Hlen, Hsrc.
    cbn [web_research_result sources_gathered merge_web_research].
    rewrite length_app, Hone. split; [lia|].
    exists (wr_sources_gathered (web_research env co (send_arg s)) ++ found).
    split; [now apply Forall_app | now rewrite app_assoc].
Qed.

Lemma length_send_ids sends : length (send_ids sends) = length sends.
Proof. unfold send_ids. apply length_map. Qed.

Lemma run_rounds_account fuel :
  forall st sends log st' log',
    run_rounds defaults env co config fuel st sends log = Some (st', log') ->
    exists new, log' = log ++ new /\ run_account st st' new.
Proof.
  induction fuel as [|fuel IH]; intros st sends log st' log' Hrun.
  { destruct sends; [|discriminate]. cbn in Hrun. injection Hrun as <- <-.
    exists []. split; [now rewrite app_nil_r|].
    unfold run_account. cbn. repeat split; try lia.
    exists []. repeat split; [constructor | now rewrite app_nil_r]. }
  destruct sends as [|s sends].
  { cbn in Hrun. injection Hrun as <- <-.
    exists []. split; [now rewrite app_nil_r|].
    unfold run_account. cbn. repeat split; try lia.
    exists []. repeat split; [constructor | now rewrite app_nil_r]. }
  assert (Hne : s :: sends <> []) by discriminate.
  destruct (round_frame defaults env co config st (s :: sends))
    as (_ & _ & HC & HC' & _ & _).
  cbv zeta in HC, HC'.
  destruct (run_tasks_frame env co st (s :: sends)) as (Hq & _ & _ & Hmsg).
  destruct (run_tasks_growth st (s :: sends)) as (Hwrr & found & Hfound & Hsrc).
  set (st1 := run_tasks env co st (s :: sends)) in *.
  set (upd := reflection defaults env co st1 config) in *.
  set (st2 := merge_reflection st1 upd) in *.
  destruct (evaluate_research_cases defaults config upd)
    as [(_ & Hgo) | (_ & _ & Hfan)].
  - rewrite (run_rounds_finalize defaults env co config fuel st (s :: sends)
               log _ Hne Hgo) in Hrun.
    apply (inj Some) in Hrun. apply pair_equal_spec in Hrun as [Hst Hlog].
    cbv zeta in Hst. subst st' log'.
    exists (log_tasks (s :: sends) ++ [NodeRun "reflection"]
            ++ [NodeRun "finalize_answer"]).
    split; [now rewrite <- !app_assoc|].
    unfold run_account.
    rewrite !task_ids_app, !count_node_app, task_ids_tasks, !count_node_tasks.
    change (task_ids [NodeRun "reflection"]) with (@nil Z).
    change (task_ids [NodeRun "finalize_answer"]) with (@nil Z).
    change (count_node "reflection" [NodeRun "reflection"]) with 1%nat.
    change (count_node "reflection" [NodeRun "finalize_answer"]) with 0%nat.
    change (count_node "finalize_answer" [NodeRun "reflection"]) with 0%nat.
    change (count_node "finalize_answer" [NodeRun "finalize_answer"]) with 1%nat.
    rewrite !app_nil_r, length_send_ids.
    cbn [search_query web_research_result research_loop_count messages
         sources_gathered merge_final merge_reflection Nat.add].
    fold st1 upd st2.
    rewrite Hq, Hwrr, HC, Hmsg, Hsrc, length_app, length_map.
    split; [reflexivity|]. split; [reflexivity|].
    split; [f_equal; lia|]. split; [lia|].
    exists found. split; [exact Hfound|]. split.
    + destruct (finalize_answer_messages defaults env co config st2)
        as [answer ->]. now exists answer.
    + unfold finalize_answer. destruct (demo_mode env);
        cbn [fin_sources_gathered]; subst st2;
        cbn [sources_gathered merge_reflection]; now rewrite Hsrc.
  - rewrite (run_rounds_fan_out defaults env co config fuel st (s :: sends)
               log _ Hne Hfan) in Hrun.
    apply IH in Hrun. destruct Hrun as (new & -> & Hacc).
    exists (log_tasks (s :: sends) ++ [NodeRun "reflection"] ++ new).
    split; [now rewrite <- !app_assoc|].
    destruct Hacc as (Aq & Aw & Ac & Af & found' & Hfound' & Hfin).
    unfold run_account.
    rewrite !task_ids_app, !count_node_app, task_ids_tasks, !count_node_tasks.
    change (task_ids [NodeRun "reflection"]) with (@nil Z).
    change (count_node "reflection" [NodeRun "reflection"]) with 1%nat.
    change (count_node "finalize_answer" [NodeRun "reflection"]) with 0%nat.
    rewrite app_nil_l, length_app, length_send_ids.
    cbn [Nat.add].
    cbn [search_query web_research_result research_loop_count messages
         sources_gathered merge_reflection] in Aq, Aw, Ac, Hfin.
    fold st1 in Aq, Aw, Ac, Hfin. fold upd in Ac.
    rewrite Hq, length_app, length_map in Aq. rewrite Hwrr in Aw.
    rewrite Hmsg, Hsrc in Hfin.
    split; [lia|]. split; [lia|]. split.
    { rewrite Ac, HC. destruct (count_node "reflection" new);
        cbn [default]; unfold id; f_equal; lia. }
    split; [exact Af|].
    exists (found ++ found'). split; [now apply Forall_app|].
    rewrite !(app_assoc (sources_gathered st) found found'). exact Hfin.
Qed.

Lemma graph_invoke_account state :
  exists st' new,
    graph_invoke defaults env co config state
    = (st', NodeRun "generate_query" :: new)
    /\ run_account
         (merge_queries state (generate_query defaults env co state config))
         st' new
    /\ (generate_query defaults env co state config = [] ->
        search_query state = [] -> new = [] /\ st' = merge_queries state []).
Proof.
  destruct (graph_invoke_run defaults env co config state)
    as (st' & log' & Hrun & Hinv).
  pose proof Hrun as Hrun'. unfold invoke in Hrun'.
  destruct (run_rounds_account _ _ _ _ _ _ Hrun') as (new & -> & Hacc).
  exists st', new. split; [exact Hinv|]. split; [exact Hacc|].
  intros Hnone Hempty. rewrite Hnone in Hrun'.
  cbn [search_query merge_queries] in Hrun'. rewrite Hempty in Hrun'.
  change (continue_to_web_research ([] ++ [])) with (@nil Send) in Hrun'.
  assert (Hend : forall fuel st log,
             run_rounds defaults env co config fuel st [] log = Some (st, log))
    by (intros [|fuel] st log; reflexivity).
  rewrite Hend in Hrun'. apply (inj Some) in Hrun'.
  apply pair_equal_spec in Hrun' as [<- Hlog].
  split; [|reflexivity].
  destruct new; [reflexivity | discriminate].
Qed.

End Accounting.

Section EndpointOnEngine.

Variable defaults : Graph.Configuration.
Variable env : Graph.Env.
Variable co : Graph.Collaborators.

Lemma endpoint_on_engine request st' log' m :
  Graph.graph_invoke defaults env co (App.build_config request)
    (App.initial_state request) = (st', log') ->
  last (Graph.messages st') = Some m ->
  App.research_endpoint (engine defaults env co) request
  = {| App.resp_query := App.query request;
       App.answer := content m;
       App.sources := App.format_sources (Graph.sources_gathered st');
       App.confidence_score :=
         App.calculate_confidence_score
           (App.format_sources (Graph.sources_gathered st')) (content m)
           (default 0 (Graph.research_loop_count st'))
           (Py.len (Graph.search_query st'));
       App.agent_type := "single-agent";
       App.metadata :=
         App.RunMetadata (default 0 (Graph.research_loop_count st'))
                         (Py.len (Graph.search_query st')) |}.
Proof.
  intros Hinv Hlast.
  unfold App.research_endpoint, App.research_body, engine.
  cbn [Py.bind Py.ret]. rewrite Hinv. cbn [fst].
  unfold App.last_item. rewrite Hlast. reflexivity.
Qed.

(** The state a run of the endpoint ends with, and what it logged. *)
Lemma endpoint_run request :
  exists st' new,
    Graph.graph_invoke defaults env co (App.build_config request)
      (App.initial_state request)
    = (st', Graph.NodeRun "generate_query" :: new)
    /\ Py.len (Graph.search_query st')
       = Z.of_nat
           (length (Graph.generate_query defaults env co
                      (App.initial_state request) (App.build_config request))
            + length (Graph.task_ids new))
    /\ default 0 (Graph.research_loop_count st')
       = Z.of_nat (Graph.count_node "reflection" new)
    /\ (Graph.count_node "finalize_answer" new <= 1)%nat
    /\ exists found,
         Forall complete_record found
         /\ match Graph.count_node "finalize_answer" new with
            | O =>
              Graph.messages st' = [HumanMessage (App.query request)]
              /\ Graph.sources_gathered st' = found
            | S _ =>
              (exists answer,
                  Graph.messages st'
                  = [HumanMessage (App.query request); AIMessage answer])
              /\ Graph.sources_gathered st' = found ++ found
            end.
Proof.
  destruct (graph_invoke_account defaults env co (App.build_config request)
              (App.initial_state request))
    as (st' & new & Hinv & (Aq & _ & Ac & Af & found & Hfound & Hfin) & _).
  exists st', new. split; [exact Hinv|].
  cbn [Graph.search_query Graph.research_loop_count Graph.messages
       Graph.sources_gathered Graph.merge_queries App.initial_state app] in *.
  split; [unfold Py.len; now rewrite Aq|].
  split.
  { rewrite Ac. destruct (Graph.count_node "reflection" new); cbn [default];
      unfold id; lia. }
  split; [exact Af|].
  exists found. split; [exact Hfound|].
  destruct (Graph.count_node "finalize_answer" new); exact Hfin.
Qed.

End EndpointOnEngine.

(** X11. A run in which no collaborator raises is never reported as an
    error: the response has agent_type "single-agent", its
    research_loops is the number of reflection calls of the run, and its
    queries_run is the number of [web_research] tasks that ran plus the
    number of planned queries (a planned query is counted when it is
    planned and again when it runs). *)
Theorem endpoint_reports_run_counts
    (defaults : Graph.Configuration) (env : Graph.Env) (co : Graph.Collaborators)
    (request : App.ResearchRequest) :
  exists st' new,
    Graph.graph_invoke defaults env co (App.build_config request)
      (App.initial_state request)
    = (st', Graph.NodeRun "generate_query" :: new)
    /\ App.agent_type (App.research_endpoint (engine defaults env co) request)
       = "single-agent"
    /\ App.metadata (App.research_endpoint (engine defaults env co) request)
       = App.RunMetadata
           (Z.of_nat (Graph.count_node "reflection" new))
           (Z.of_nat
              (length (Graph.generate_query defaults env co
                         (App.initial_state request) (App.build_config request))
               + length (Graph.task_ids new))).
Proof.
  destruct (endpoint_run defaults env co request)
    as (st' & new & Hinv & Hq & Hc & _ & found & _ & Hfin).
  exists st', new. split; [exact Hinv|].
  assert (Hlast : exists m, last (Graph.messages st') = Some m).
  { destruct (Graph.count_node "finalize_answer" new).
    - destruct Hfin as [-> _]. now eexists.
    - destruct Hfin as [[answer ->] _]. now eexists. }
  destruct Hlast as [m Hlast].
  rewrite (endpoint_on_engine defaults env co request st' _ m Hinv Hlast).
  cbn [App.agent_type App.metadata]. now rewrite Hq, Hc.
Qed.

(** X12. When the planner returns no query, no task is scheduled and
    the run ends before any research: the endpoint then answers with the
    user's own query, with no source, zero loops and zero queries, in a
    response that is not marked as an error. More generally, whenever
    the finalizer did not run, the answer is the query. *)
Theorem unfinalized_run_echoes_query
    (defaults : Graph.Configuration) (env : Graph.Env) (co : Graph.Collaborators)
    (request : App.ResearchRequest) :
  (Graph.generate_query defaults env co (App.initial_state request)
     (App.build_config request) = [] ->
   App.research_endpoint (engine defaults env co) request
   = {| App.resp_query := App.query request;
        App.answer := App.query request;
        App.sources := [];
        App.confidence_score :=
          App.calculate_confidence_score [] (App.query request) 0 0;
        App.agent_type := "single-agent";
        App.metadata := App.RunMetadata 0 0 |})
  /\ (Graph.count_node "finalize_answer"
        (snd (Graph.graph_invoke defaults env co (App.build_config request)
                (App.initial_state request))) = 0%nat ->
      App.answer (App.research_endpoint (engine defaults env co) request)
      = App.query request).
Proof.
  split.
  - intros Hnone.
    destruct (graph_invoke_account defaults env co (App.build_config request)
                (App.initial_state request))
      as (st' & new & Hinv & _ & Hempty).
    destruct (Hempty Hnone eq_refl) as [-> ->].
    now rewrite (endpoint_on_engine defaults env co request _ _
                   (HumanMessage (App.query request)) Hinv eq_refl).
  - destruct (endpoint_run defaults env co request)
      as (st' & new & Hinv & _ & _ & _ & found & _ & Hfin).
    rewrite Hinv. cbn [snd].
    change (Graph.count_node "finalize_answer"
              (Graph.NodeRun "generate_query" :: new))
      with (Graph.count_node "finalize_answer" new).
    intros Hzero. rewrite Hzero in Hfin. destruct Hfin as [Hmsg _].
    rewrite (endpoint_on_engine defaults env co request st' _
               (HumanMessage (App.query request)) Hinv);
      [reflexivity | now rewrite Hmsg].
Qed.

Lemma unfinalized_run_echoes_query_witness :
  App.answer
    (App.research_endpoint (engine standard_defaults demo_env stalled_collaborators)
       no_query_request)
  = "What is quantum computing?"
  /\ App.metadata
       (App.research_endpoint (engine standard_defaults demo_env stalled_collaborators)
          no_query_request)
     = App.RunMetadata 0 0.
Proof.
  rewrite (proj1 (unfinalized_run_echoes_query standard_defaults demo_env
                    stalled_collaborators no_query_request)).
  - split; reflexivity.
  - vm_compute. reflexivity.
Defined.

(** X13. [finalize_answer] returns the gathered sources in its update,
    and the update is merged by appending: after a run that finalized,
    the state holds the gathered list twice in a row, and the response
    of the endpoint lists every source twice. *)
Theorem finalized_run_repeats_sources
    (defaults : Graph.Configuration) (env : Graph.Env) (co : Graph.Collaborators)
    (request : App.ResearchRequest) :
  Graph.count_node "finalize_answer"
    (snd (Graph.graph_invoke defaults env co (App.build_config request)
            (App.initial_state request))) = 1%nat ->
  exists gathered,
    Forall complete_record gathered
    /\ Graph.sources_gathered
         (fst (Graph.graph_invoke defaults env co (App.build_config request)
                 (App.initial_state request)))
       = gathered ++ gathered
    /\ App.sources (App.research_endpoint (engine defaults env co) request)
       = App.format_sources gathered ++ App.format_sources gathered
    /\ length (App.sources (App.research_endpoint (engine defaults env co) request))
       = (2 * length gathered)%nat.
Proof.
  destruct (endpoint_run defaults env co request)
    as (st' & new & Hinv & _ & _ & _ & found & Hfound & Hfin).
  rewrite Hinv. cbn [fst snd].
  change (Graph.count_node "finalize_answer"
            (Graph.NodeRun "generate_query" :: new))
    with (Graph.count_node "finalize_answer" new).
  intros Hone. rewrite Hone in Hfin. destruct Hfin as [[answer Hmsg] Hsrc].
  exists found. split; [exact Hfound|]. split; [exact Hsrc|].
  rewrite (endpoint_on_engine defaults env co request st' _
             (AIMessage answer) Hinv) by now rewrite Hmsg.
  cbn [App.sources]. rewrite Hsrc, !format_sources_omap, omap_app.
  split; [reflexivity|]. rewrite length_app.
  assert (Hlen : length (omap formatted found) = length found).
  { apply omap_length_all. eapply Forall_impl; [exact Hfound|].
    intros src Hsrc'.
    destruct (complete_record_formatted src Hsrc') as (u & t & _ & ->).
    now eexists. }
  lia.
Qed.

Lemma finalized_run_repeats_sources_witness :
  exists gathered : list Source,
    length gathered = 12%nat
    /\ length
         (App.sources
            (App.research_endpoint
               (engine standard_defaults demo_env stalled_collaborators)
               quantum_request))
       = 24%nat.
Proof.
  destruct (finalized_run_repeats_sources standard_defaults demo_env
              stalled_collaborators quantum_request)
    as (gathered & _ & Hsrc & _ & Hlen).
  - vm_compute. reflexivity.
  - exists gathered. split; [|vm_compute; reflexivity].
    apply (f_equal (@length Source)) in Hsrc. rewrite length_app in Hsrc.
    assert (Htotal :
              length (Graph.sources_gathered
                        (fst (Graph.graph_invoke standard_defaults demo_env
                                stalled_collaborators
                                (App.build_config quantum_request)
                                (App.initial_state quantum_request))))
              = 24%nat) by (vm_compute; reflexivity).
    rewrite Htotal in Hsrc. lia.
Defined.

Section DemoRun.

Import Graph.

Variable defaults : Configuration.
Variable env : Env.
Variable co : Collaborators.
Variable config : RunnableConfig.

Hypothesis Hdemo : demo_mode env = true.

Lemma reflection_demo st :
  let r := reflection defaults env co st config in
  let c1 := default 0 (research_loop_count st) + 1 in
  (max_research_loops (from_runnable_config defaults config) <= c1 ->
   is_sufficient r = true)
  /\ (c1 < max_research_loops (from_runnable_config defaults config) ->
      is_sufficient r = false /\ length (follow_up_queries r) = 2%nat).
Proof.
  cbv zeta. unfold reflection. rewrite Hdemo.
  cbn [research_loop_count default].
  match goal with
  | |- context [?a >=? ?b] => destruct (Z.geb_spec a b) as [Hge|Hlt]
  end;
    cbn [is_sufficient follow_up_queries length]; unfold id in *;
    split; intros Hc; try reflexivity; try lia; now split.
Qed.

Lemma run_rounds_demo fuel :
  forall st sends log,
    st_max_research_loops st = None ->
    sends <> [] ->
    (round_budget defaults config st <= fuel)%nat ->
    exists st' new,
      run_rounds defaults env co config fuel st sends log = Some (st', log ++ new)
      /\ count_node "reflection" new = round_budget defaults config st
      /\ length (task_ids new)
         = (length sends + 2 * (round_budget defaults config st - 1))%nat
      /\ count_node "finalize_answer" new = 1%nat.
Proof.
  induction fuel as [|fuel IH]; intros st sends log Hmax Hne Hfuel;
    [unfold round_budget in Hfuel; lia|].
  destruct (round_frame defaults env co config st sends)
    as (HK & HB & HC & HC' & _ & _).
  cbv zeta in HK, HB, HC, HC'.
  destruct (run_tasks_frame env co st sends) as (_ & Hmax1 & Hcount1 & _).
  destruct (reflection_demo (run_tasks env co st sends)) as [Hsuff Hinsuff].
  rewrite Hcount1 in Hsuff, Hinsuff.
  assert (HKcfg : max_rounds defaults config st
                  = max_research_loops (from_runnable_config defaults config))
    by (unfold max_rounds; now rewrite Hmax).
  set (st1 := run_tasks env co st sends) in *.
  set (upd := reflection defaults env co st1 config) in *.
  destruct (evaluate_research_cases defaults config upd)
    as [(Hstop & Hgo) | (His & Hlt & Hfan)].
  - rewrite (run_rounds_finalize defaults env co config fuel st sends log _ Hne Hgo).
    eexists _, (log_tasks sends ++ [NodeRun "reflection"]
                 ++ [NodeRun "finalize_answer"]).
    split; [now rewrite <- !app_assoc|].
    assert (Hone : round_budget defaults config st = 1%nat).
    { unfold round_budget. rewrite HB, HC in Hstop.
      destruct Hstop as [Hs|Hb]; [|lia].
      destruct (Z.lt_ge_cases
                  (default 0 (research_loop_count st) + 1)
                  (max_research_loops (from_runnable_config defaults config)))
        as [Hlt|Hge]; [|lia].
      destruct (Hinsuff Hlt) as [Hfalse _]. congruence. }
    rewrite Hone, !task_ids_app, !count_node_app, task_ids_tasks, !count_node_tasks.
    cbn. rewrite app_nil_r, length_send_ids. repeat split; lia.
  - rewrite (run_rounds_fan_out defaults env co config fuel st sends log _ Hne Hfan).
    rewrite HB, HC in Hlt.
    destruct Hinsuff as [_ Hlen]; [lia|].
    set (sends' := map _ (Py.enumerate (follow_up_queries upd))) in *.
    assert (Hlen' : length sends' = 2%nat).
    { unfold sends', Py.enumerate. now rewrite length_map, length_enumerate_from. }
    set (st2 := merge_reflection st1 upd) in *.
    assert (Hbudget : round_budget defaults config st
                      = S (round_budget defaults config st2)).
    { unfold round_budget. rewrite HK, HC'.
      change (default 0 (Some (default 0 (research_loop_count st) + 1)))
        with (default 0 (research_loop_count st) + 1).
      lia. }
    destruct (IH st2 sends'
                (log ++ log_tasks sends ++ [NodeRun "reflection"]))
      as (st' & new & Hrun & Hrefl & Htasks & Hfin).
    + subst st2. cbn [st_max_research_loops merge_reflection]. fold st1.
      congruence.
    + intros Hnil. rewrite Hnil in Hlen'. discriminate.
    + lia.
    + exists st', (log_tasks sends ++ [NodeRun "reflection"] ++ new).
      split; [etransitivity; [exact Hrun|]; now rewrite <- !app_assoc|].
      rewrite !task_ids_app, !count_node_app, task_ids_tasks, !count_node_tasks.
      change (task_ids [NodeRun "reflection"]) with (@nil Z).
      change (count_node "reflection" [NodeRun "reflection"]) with 1%nat.
      change (count_node "finalize_answer" [NodeRun "reflection"]) with 0%nat.
      rewrite app_nil_l, length_app, length_send_ids, Hrefl, Htasks, Hfin, Hlen'.
      assert (Hpos : (1 <= round_budget defaults config st2)%nat)
        by (unfold round_budget; lia).
      repeat split; lia.
Qed.

End DemoRun.

(** X14. In demo mode, with N >= 1 initial queries and a budget of K
    loops (each the request's value when it is given and not zero, else
    the default), a run performs exactly max(K, 1) reflections and
    finalizes; the endpoint reports research_loops = max(K, 1) and
    queries_run = 2N + 2(max(K, 1) - 1): the N planned queries counted
    twice, plus two follow-up queries per further round. *)
Theorem demo_run_shape
    (defaults : Graph.Configuration) (env : Graph.Env) (co : Graph.Collaborators)
    (request : App.ResearchRequest) :
  Graph.demo_mode env = true ->
  let configurable :=
    Graph.from_runnable_config defaults (App.build_config request) in
  1 <= Graph.number_of_initial_queries configurable ->
  let loops := Z.max 1 (Graph.max_research_loops configurable) in
  Graph.count_node "finalize_answer"
    (snd (Graph.graph_invoke defaults env co (App.build_config request)
            (App.initial_state request))) = 1%nat
  /\ App.metadata (App.research_endpoint (engine defaults env co) request)
     = App.RunMetadata loops
         (2 * Graph.number_of_initial_queries configurable + 2 * (loops - 1)).
Proof.
  intros Hdemo configurable Hcount loops.
  set (config := App.build_config request) in *.
  set (state := App.initial_state request) in *.
  set (planned := Graph.generate_query defaults env co state config).
  assert (Hplanned : length planned
                     = Z.to_nat (Graph.number_of_initial_queries configurable)).
  { unfold planned, Graph.generate_query. rewrite Hdemo.
    unfold Graph.range. now rewrite !length_map, length_seq. }
  destruct (continue_to_web_research_ids (Graph.search_query state ++ planned))
    as (_ & _ & Hsends).
  destruct (run_rounds_demo defaults env co config Hdemo
              (Graph.round_budget defaults config state)
              (Graph.merge_queries state planned)
              (Graph.continue_to_web_research (Graph.search_query state ++ planned))
              [Graph.NodeRun "generate_query"])
    as (st' & new & Hrun & Hrefl & Htasks & Hfin).
  { reflexivity. }
  { intros Hnil. rewrite Hnil in Hsends. cbn in Hsends. lia. }
  { apply Nat.le_refl. }
  assert (Hinv : Graph.graph_invoke defaults env co config state
                 = (st', Graph.NodeRun "generate_query" :: new)).
  { unfold Graph.graph_invoke, Graph.invoke. fold planned.
    cbn [Graph.search_query Graph.merge_queries]. now rewrite Hrun. }
  destruct (endpoint_run defaults env co request)
    as (st'' & new' & Hinv' & Hq & Hc & _ & found & _ & Hmsgs).
  fold config state in Hinv'. rewrite Hinv in Hinv'.
  injection Hinv' as <- <-.
  rewrite Hinv. cbn [snd].
  change (Graph.count_node "finalize_answer"
            (Graph.NodeRun "generate_query" :: new))
    with (Graph.count_node "finalize_answer" new).
  split; [exact Hfin|].
  rewrite Hfin in Hmsgs. destruct Hmsgs as [[answer Hmsg] _].
  rewrite (endpoint_on_engine defaults env co request st' _
             (AIMessage answer) Hinv) by now rewrite Hmsg.
  cbn [App.metadata]. fold config state planned in Hq.
  rewrite Hq, Hc, Hrefl, Htasks, Hsends, Hplanned.
  assert (Hbudget : Graph.round_budget defaults config
                      (Graph.merge_queries state planned) = Z.to_nat loops).
  { unfold Graph.round_budget, Graph.max_rounds, loops.
    subst state. cbn [App.initial_state Graph.st_max_research_loops
                      Graph.research_loop_count Graph.merge_queries default].
    now rewrite Z.sub_0_r. }
  rewrite Hbudget. subst state.
  cbn [Graph.search_query App.initial_state app].
  rewrite Hplanned. f_equal; unfold loops; lia.
Qed.

Lemma demo_run_shape_witness :
  App.metadata
    (App.research_endpoint (engine standard_defaults demo_env stalled_collaborators)
       zero_loop_request)
  = App.RunMetadata 2 8.
Proof.
  rewrite (proj2 (demo_run_shape standard_defaults demo_env stalled_collaborators
                    zero_loop_request eq_refl ltac:(vm_compute; discriminate))).
  reflexivity.
Defined.

(** * Further properties of the endpoints *)

Section StreamFacts.

Import App.





Lemma numbered_is_step hi ev : numbered_step hi ev -> is_step ev.
Proof. destruct ev; cbn; tauto. Qed.


End StreamFacts.





(** X17. Every response of [/research] is of one of two kinds: the
    degraded one (agent_type "error", confidence 0.0, no source) when
    the body raised, or a scored one (agent_type "single-agent") whose
    answer is the content of the last message of the result, whose
    confidence lies in [0.5, 1.0] and which lists at most as many sources
    as the run gathered. A confidence strictly between 0 and 0.5 never
    occurs. *)
Theorem response_degraded_or_scored
    (graph_invoke :
       Graph.OverallState -> Graph.RunnableConfig -> Py.result Graph.OverallState)
    (request : App.ResearchRequest) :
  let response := App.research_endpoint graph_invoke request in
  (exists e,
      App.research_body graph_invoke request = inl e
      /\ App.agent_type response = "error"
      /\ App.confidence_score response = 0.0%float
      /\ App.sources response = [])
  \/ (exists result m,
         graph_invoke (App.initial_state request) (App.build_config request)
         = inr result
         /\ last (Graph.messages result) = Some m
         /\ App.agent_type response = "single-agent"
         /\ App.answer response = content m
         /\ PrimFloat.leb 0.5 (App.confidence_score response) = true
         /\ PrimFloat.leb (App.confidence_score response) 1.0 = true
         /\ (length (App.sources response)
             <= length (Graph.sources_gathered result))%nat).
Proof.
  cbv zeta. unfold App.research_endpoint.
  destruct (App.research_body graph_invoke request) as [e|response] eqn:Hbody.
  - left. exists e. repeat split.
  - right. unfold App.research_body in Hbody. cbv zeta in Hbody.
    destruct (graph_invoke (App.initial_state request) (App.build_config request))
      as [e|result]; cbn [Py.bind] in Hbody; [discriminate|].
    unfold App.last_item in Hbody.
    destruct (last (Graph.messages result)) as [m|] eqn:Hlast;
      cbn [Py.bind Py.ret Py.raise] in Hbody; [|discriminate].
    injection Hbody as <-. exists result, m.
    cbn [App.agent_type App.answer App.confidence_score App.sources].
    rewrite calculate_confidence_score_is_score.
    split; [reflexivity|]. split; [exact Hlast|]. split; [reflexivity|].
    split; [reflexivity|]. split; [apply score_at_least_half|].
    split; [apply score_range|].
    rewrite format_sources_omap. apply omap_length_all.
Qed.
